(** * Session persistence of the Pachi Hacker-Text-Editor

    A shallow embedding of the session store of
    [Pachi-hacker-Text-Editor.py]: [HackerEditor.load_session],
    [HackerEditor.auto_save_session], [HackerEditor.new_tab] and
    [EditorTab.__init__], together with the parts of the Python
    standard library they call ([json.dump], [json.load], [open],
    [os.path]).

    Python values are modelled by [pyval]; a Python [str] is a list of
    Unicode code points.  The file system and the editor window are
    explicit state, threaded through a state-and-exception monad: a
    Python exception that nobody catches is the [Raise] outcome. *)

From Stdlib Require Import ZArith NArith List String Ascii Lia Bool DecimalString.
From stdpp Require Import gmap list.
Import ListNotations.

Set Warnings "-register-all".
Local Open Scope N_scope.

(** ** Python strings *)

(** A [str] is a sequence of code points. *)
Abbreviation str := (list N).

(** The [str] of an ASCII literal. *)
Definition py (s : string) : str :=
  map N_of_ascii (list_ascii_of_string s).

(** ** Python values, as far as [json] produces them *)

Inductive pyval :=
  | PNone
  | PBool (b : bool)
  | PInt (z : Z)
  | PFloat (lit : str)       (* a float, kept as the literal it was read from *)
  | PStr (s : str)
  | PList (l : list pyval)
  | PDict (d : list (str * pyval)).  (* insertion-ordered, keys unique *)

(** Exceptions that the modelled code can raise. *)
Inductive exn :=
  | JSONDecodeError
  | RecursionError
  | FileNotFoundError
  | OSError
  | UnicodeDecodeError
  | TypeError
  | AttributeError.

Inductive result (A : Type) :=
  | Ok (a : A)
  | Raise (e : exn).
Arguments Ok {A} a.
Arguments Raise {A} e.

(** *** [dict] operations *)

Fixpoint dict_get (k : str) (d : list (str * pyval)) : pyval :=
  match d with
  | [] => PNone
  | (k', v) :: d' => if decide (k = k') then v else dict_get k d'
  end.

(** [d[k] = v]: replaces in place, or appends a new key. *)
Fixpoint dict_set (k : str) (v : pyval) (d : list (str * pyval)) : list (str * pyval) :=
  match d with
  | [] => [(k, v)]
  | (k', v') :: d' =>
      if decide (k = k') then (k', v) :: d' else (k', v') :: dict_set k v d'
  end.

(** [dict(pairs)] *)
Definition dict_of_pairs (pairs : list (str * pyval)) : list (str * pyval) :=
  fold_left (fun d kv => dict_set (fst kv) (snd kv) d) pairs [].

(** *** Numbers *)

Definition is_digit (c : N) : bool := (48 <=? c) && (c <=? 57).

Definition digits_value (ds : str) : N :=
  fold_left (fun acc d => 10 * acc + (d - 48)) ds 0.

Fixpoint span_digits (s : str) : str * str :=
  match s with
  | c :: s' =>
      if is_digit c then let '(ds, r) := span_digits s' in (c :: ds, r)
      else ([], s)
  | [] => ([], [])
  end.

Definition int_of_lit (lit : str) : Z :=
  match lit with
  | 45 :: ds => (- Z.of_N (digits_value ds))%Z
  | _ => Z.of_N (digits_value lit)
  end.

(** Whether the float literal [lit] denotes zero, that is, whether the
    decimal [m * 10^k] it spells rounds to zero as an IEEE double: it
    does when it is at most [2^-1075], half the smallest subnormal.
    [NaN] and the infinities have no digits and are not zero. *)
Definition float_is_zero (lit : str) : bool :=
  let body := match lit with 45 :: r => r | _ => lit end in
  let '(ip, r1) := span_digits body in
  let '(fp, r2) := match r1 with 46 :: r => span_digits r | _ => ([], r1) end in
  let e : Z :=
    match r2 with
    | _ :: 45 :: ds => (- Z.of_N (digits_value ds))%Z
    | _ :: 43 :: ds => Z.of_N (digits_value ds)
    | _ :: ds => Z.of_N (digits_value ds)
    | [] => 0%Z
    end in
  match ip with
  | [] => false
  | _ =>
      let m := Z.of_N (digits_value (ip ++ fp)) in
      let k := (e - Z.of_nat (length fp))%Z in
      (m =? 0)%Z || ((k <? 0)%Z && (m * 2 ^ 1075 <=? 10 ^ (- k))%Z)
  end.

(** Python truth value, as tested by [if x:] and [elif path:]. *)
Definition truthy (v : pyval) : bool :=
  match v with
  | PNone => false
  | PBool b => b
  | PInt z => negb (z =? 0)%Z
  | PFloat lit => negb (float_is_zero lit)
  | PStr s => match s with [] => false | _ => true end
  | PList l => match l with [] => false | _ => true end
  | PDict d => match d with [] => false | _ => true end
  end.

(** ** [json.dump]

    The encoder with its default settings: [ensure_ascii=True],
    separators [", "] and [": "], no indentation. *)

Definition hex_digit (n : N) : N :=
  if n <? 10 then 48 + n else 87 + n.

(** ['\\u{0:04x}'.format(n)] for [n < 0x10000] *)
Definition u_escape (n : N) : str :=
  [92; 117; hex_digit (N.shiftr n 12 mod 16); hex_digit (N.shiftr n 8 mod 16);
   hex_digit (N.shiftr n 4 mod 16); hex_digit (n mod 16)].

(** The replacement of one character by [py_encode_basestring_ascii]:
    [ESCAPE_DCT] first, printable ASCII unchanged, everything else as
    [\uXXXX], above the BMP as a surrogate pair. *)
Definition escape_char (c : N) : str :=
  if c =? 92 then [92; 92]
  else if c =? 34 then [92; 34]
  else if c =? 8 then [92; 98]
  else if c =? 12 then [92; 102]
  else if c =? 10 then [92; 110]
  else if c =? 13 then [92; 114]
  else if c =? 9 then [92; 116]
  else if (32 <=? c) && (c <=? 126) then [c]
  else if c <? 0x10000 then u_escape c
  else
    let n := c - 0x10000 in
    u_escape (N.lor 0xd800 (N.land (N.shiftr n 10) 0x3ff))
    ++ u_escape (N.lor 0xdc00 (N.land n 0x3ff)).

Definition encode_basestring_ascii (s : str) : str :=
  34 :: flat_map escape_char s ++ [34].

(** [int.__repr__] *)
Definition int_repr (z : Z) : str :=
  py (NilZero.string_of_int (Z.to_int z)).

(** [float.__repr__] on the floats a tab can hold.  A float reaches
    [EditorTab.path] only when it is falsy, so only the two zeros are
    ever printed; any other float is printed as its literal. *)
Definition float_repr (lit : str) : str :=
  if float_is_zero lit then
    match lit with 45 :: _ => py "-0.0" | _ => py "0.0" end
  else lit.

Fixpoint join_items (items : list str) : str :=
  match items with
  | [] => []
  | [x] => x
  | x :: rest => x ++ py ", " ++ join_items rest
  end.

Fixpoint json_dumps (v : pyval) : str :=
  match v with
  | PNone => py "null"
  | PBool true => py "true"
  | PBool false => py "false"
  | PInt z => int_repr z
  | PFloat lit => float_repr lit
  | PStr s => encode_basestring_ascii s
  | PList l => 91 :: join_items (map json_dumps l) ++ [93]
  | PDict d =>
      123 :: join_items
               (map (fun kv => encode_basestring_ascii (fst kv) ++ py ": " ++ json_dumps (snd kv)) d)
          ++ [125]
  end.

(** ** [json.load]

    The decoder: [scanstring], [JSONObject], [JSONArray] and the
    scanner [scan_once] of [json.decoder] and [json.scanner], on the
    text that remains to be read. *)

(** Outcome of a scanning function.  [PFuel] marks a loop counter that
    ran out; the counters are started above the length of the text, and
    [scan_once_consuming] below shows that it never happens. *)
Inductive presult (A : Type) :=
  | POk (a : A)
  | PErr (e : exn)
  | PFuel.
Arguments POk {A} a.
Arguments PErr {A} e.
Arguments PFuel {A}.

Definition is_ws (c : N) : bool :=
  (c =? 32) || (c =? 9) || (c =? 10) || (c =? 13).

Fixpoint skip_ws (s : str) : str :=
  match s with
  | c :: s' => if is_ws c then skip_ws s' else s
  | [] => []
  end.

Definition hex_value (c : N) : option N :=
  if (48 <=? c) && (c <=? 57) then Some (c - 48)
  else if (97 <=? c) && (c <=? 102) then Some (c - 87)
  else if (65 <=? c) && (c <=? 70) then Some (c - 55)
  else None.

Definition decode_uXXXX (h1 h2 h3 h4 : N) : option N :=
  match hex_value h1, hex_value h2, hex_value h3, hex_value h4 with
  | Some a, Some b, Some c, Some d => Some (((a * 16 + b) * 16 + c) * 16 + d)
  | _, _, _, _ => None
  end.

Definition is_high_surrogate (c : N) : bool := (0xd800 <=? c) && (c <=? 0xdbff).
Definition is_low_surrogate (c : N) : bool := (0xdc00 <=? c) && (c <=? 0xdfff).

Definition join_surrogates (hi lo : N) : N :=
  0x10000 + N.lor (N.shiftl (hi - 0xd800) 10) (lo - 0xdc00).

(** The [BACKSLASH] table. *)
Definition backslash (esc : N) : option N :=
  if esc =? 34 then Some 34
  else if esc =? 92 then Some 92
  else if esc =? 47 then Some 47
  else if esc =? 98 then Some 8
  else if esc =? 102 then Some 12
  else if esc =? 110 then Some 10
  else if esc =? 114 then Some 13
  else if esc =? 116 then Some 9
  else None.

Definition cons_chr (c : N) (r : option (str * str)) : option (str * str) :=
  match r with
  | Some (k, rest) => Some (c :: k, rest)
  | None => None
  end.

(** [scanstring(s, end, strict=True)], started after the opening quote:
    the decoded string and the text after the closing quote; [None] is
    a [JSONDecodeError].  A [\uXXXX] escape for a high surrogate that
    is followed by one for a low surrogate decodes to one character. *)
Fixpoint scanstring (s : str) : option (str * str) :=
  match s with
  | [] => None
  | c :: s1 =>
      if c =? 34 then Some ([], s1)
      else if c =? 92 then
        match s1 with
        | [] => None
        | esc :: s2 =>
            if esc =? 117 then
              match s2 with
              | h1 :: h2 :: h3 :: h4 :: s3 =>
                  match decode_uXXXX h1 h2 h3 h4 with
                  | None => None
                  | Some uni =>
                      if is_high_surrogate uni then
                        match s3 with
                        | b :: u :: k1 :: k2 :: k3 :: k4 :: s4 =>
                            if (b =? 92) && (u =? 117) then
                              match decode_uXXXX k1 k2 k3 k4 with
                              | None => None
                              | Some uni2 =>
                                  if is_low_surrogate uni2
                                  then cons_chr (join_surrogates uni uni2) (scanstring s4)
                                  else cons_chr uni (scanstring s3)
                              end
                            else cons_chr uni (scanstring s3)
                        | _ => cons_chr uni (scanstring s3)
                        end
                      else cons_chr uni (scanstring s3)
                  end
              | _ => None
              end
            else
              match backslash esc with
              | Some ch => cons_chr ch (scanstring s2)
              | None => None
              end
        end
      else if c <? 32 then None
      else cons_chr c (scanstring s1)
  end.

Fixpoint strip_prefix (p s : str) : option str :=
  match p, s with
  | [], _ => Some s
  | a :: p', b :: s' => if a =? b then strip_prefix p' s' else None
  | _ :: _, [] => None
  end.

Definition is_nil {A} (l : list A) : bool :=
  match l with [] => true | _ => false end.

(** [NUMBER_RE.match]: whether the match has a fraction or an exponent,
    the matched literal, and the text after it. *)
Definition match_number (s : str) : option (bool * str * str) :=
  let '(sign, s1) :=
    match s with
    | c :: r => if c =? 45 then ([c], r) else ([], s)
    | [] => ([], s)
    end in
  match s1 with
  | c :: s2 =>
      if is_digit c then
        let '(ip, r1) :=
          if c =? 48 then ([c], s2)
          else let '(ds, r) := span_digits s2 in (c :: ds, r) in
        let '(fp, r2) :=
          match r1 with
          | dot :: r =>
              if dot =? 46 then
                match span_digits r with
                | ([], _) => ([], r1)
                | (ds, r') => (dot :: ds, r')
                end
              else ([], r1)
          | [] => ([], r1)
          end in
        let '(ep, r3) :=
          match r2 with
          | e :: r =>
              if (e =? 101) || (e =? 69) then
                let '(sg, r') :=
                  match r with
                  | x :: r'' => if (x =? 43) || (x =? 45) then ([x], r'') else ([], r)
                  | [] => ([], r)
                  end in
                match span_digits r' with
                | ([], _) => ([], r2)
                | (ds, r'') => (e :: sg ++ ds, r'')
                end
              else ([], r2)
          | [] => ([], r2)
          end in
        Some (negb (is_nil fp && is_nil ep), sign ++ ip ++ fp ++ ep, r3)
      else None
  | [] => None
  end.

(** The [while True] loop of [JSONArray]; [s] stands at a value. *)
Fixpoint array_items (scan : str -> presult (pyval * str)) (n : nat) (s : str)
  : presult (list pyval * str) :=
  match n with
  | O => PFuel
  | S n' =>
      match scan s with
      | POk (v, r) =>
          match skip_ws r with
          | c :: r' =>
              if c =? 93 then POk ([v], r')
              else if c =? 44 then
                match array_items scan n' (skip_ws r') with
                | POk (vs, r'') => POk (v :: vs, r'')
                | PErr e => PErr e
                | PFuel => PFuel
                end
              else PErr JSONDecodeError
          | [] => PErr JSONDecodeError
          end
      | PErr e => PErr e
      | PFuel => PFuel
      end
  end.

Definition JSONArray (scan : str -> presult (pyval * str)) (s : str)
  : presult (pyval * str) :=
  let s := skip_ws s in
  if match s with c :: _ => c =? 93 | [] => false end
  then POk (PList [], tl s)
  else
    match array_items scan (S (length s)) s with
    | POk (vs, r) => POk (PList vs, r)
    | PErr e => PErr e
    | PFuel => PFuel
    end.

(** The [while True] loop of [JSONObject]; [s] stands after the
    opening quote of a key. *)
Fixpoint object_items (scan : str -> presult (pyval * str)) (n : nat) (s : str)
  : presult (list (str * pyval) * str) :=
  match n with
  | O => PFuel
  | S n' =>
      match scanstring s with
      | None => PErr JSONDecodeError
      | Some (key, r) =>
          match skip_ws r with
          | colon :: r1 =>
              if negb (colon =? 58) then PErr JSONDecodeError else
              match scan (skip_ws r1) with
              | POk (v, r2) =>
                  match skip_ws r2 with
                  | c :: r3 =>
                      if c =? 125 then POk ([(key, v)], r3)
                      else if c =? 44 then
                        match skip_ws r3 with
                        | q :: r4 =>
                            if negb (q =? 34) then PErr JSONDecodeError else
                            match object_items scan n' r4 with
                            | POk (kvs, r5) => POk ((key, v) :: kvs, r5)
                            | PErr e => PErr e
                            | PFuel => PFuel
                            end
                        | [] => PErr JSONDecodeError
                        end
                      else PErr JSONDecodeError
                  | [] => PErr JSONDecodeError
                  end
              | PErr e => PErr e
              | PFuel => PFuel
              end
          | [] => PErr JSONDecodeError
          end
      end
  end.

Definition JSONObject (scan : str -> presult (pyval * str)) (s : str)
  : presult (pyval * str) :=
  match skip_ws s with
  | c :: r =>
      if c =? 125 then POk (PDict [], r)
      else if c =? 34 then
        match object_items scan (S (length r)) r with
        | POk (kvs, r') => POk (PDict (dict_of_pairs kvs), r')
        | PErr e => PErr e
        | PFuel => PFuel
        end
      else PErr JSONDecodeError
  | [] => PErr JSONDecodeError
  end.

Definition scan_literal (s : str) : presult (pyval * str) :=
  match strip_prefix (py "null") s with
  | Some r => POk (PNone, r)
  | None =>
  match strip_prefix (py "true") s with
  | Some r => POk (PBool true, r)
  | None =>
  match strip_prefix (py "false") s with
  | Some r => POk (PBool false, r)
  | None =>
  match match_number s with
  | Some (is_float, lit, r) =>
      POk (if is_float then PFloat lit else PInt (int_of_lit lit), r)
  | None =>
  match strip_prefix (py "NaN") s with
  | Some r => POk (PFloat (py "NaN"), r)
  | None =>
  match strip_prefix (py "Infinity") s with
  | Some r => POk (PFloat (py "Infinity"), r)
  | None =>
  match strip_prefix (py "-Infinity") s with
  | Some r => POk (PFloat (py "-Infinity"), r)
  | None => PErr JSONDecodeError
  end end end end end end end.

(** [scan_once]; [depth] is the room left on the interpreter stack:
    nesting deeper than that raises [RecursionError]. *)
Fixpoint scan_once (depth : nat) (s : str) : presult (pyval * str) :=
  match depth with
  | O => PErr RecursionError
  | S depth' =>
      match s with
      | [] => PErr JSONDecodeError
      | c :: s1 =>
          if c =? 34 then
            match scanstring s1 with
            | Some (k, r) => POk (PStr k, r)
            | None => PErr JSONDecodeError
            end
          else if c =? 123 then JSONObject (scan_once depth') s1
          else if c =? 91 then JSONArray (scan_once depth') s1
          else scan_literal s
      end
  end.

(** [sys.getrecursionlimit()] *)
Definition recursion_limit : nat := 1000.

(** [json.loads(s)]: [JSONDecoder.decode], which skips white space,
    scans one value and rejects extra data. *)
Definition json_loads (s : str) : result pyval :=
  match scan_once recursion_limit (skip_ws s) with
  | POk (v, r) =>
      match skip_ws r with
      | [] => Ok v
      | _ => Raise JSONDecodeError
      end
  | PErr e => Raise e
  | PFuel => Raise RecursionError
  end.

(** ** [os.path] *)

(** [posixpath.basename]: what follows the last [/]. *)
Fixpoint basename (p : str) : str :=
  match p with
  | [] => []
  | c :: p' =>
      if existsb (N.eqb 47) p' then basename p'
      else if c =? 47 then p' else p
  end.

(** [posixpath.join(a, b)] *)
Definition os_path_join (a b : str) : str :=
  match b with
  | 47 :: _ => b
  | _ =>
      match last a with
      | None => b
      | Some c => if c =? 47 then a ++ b else a ++ 47 :: b
      end
  end.

(** ** The file system *)

Inductive file :=
  | Text (s : str)         (* a regular file; its bytes are the UTF-8 of [s] *)
  | Unreadable (e : exn).  (* present, but reading it raises [e]: a
                              directory, no permission, not UTF-8 *)

(** What stands in the way of writing a path. *)
Inductive write_fault :=
  | Denied                 (* [open(path, "w")] raises; the file is untouched *)
  | NoSpace (room : nat).  (* the device takes [room] characters, then raises *)

Record filesystem := FS {
  files : gmap str file;
  faults : gmap str write_fault
}.

(** [os.path.exists] *)
Definition os_path_exists (fs : filesystem) (path : str) : bool :=
  bool_decide (is_Some (files fs !! path)).

(** [open(path, encoding="utf-8").read()] *)
Definition read_text (fs : filesystem) (path : str) : result str :=
  match files fs !! path with
  | None => Raise FileNotFoundError
  | Some (Text s) => Ok s
  | Some (Unreadable e) => Raise e
  end.

Definition put_file (path : str) (f : file) (fs : filesystem) : filesystem :=
  {| files := <[path := f]> (files fs); faults := faults fs |}.

(** [with open(path, "w", encoding="utf-8") as f: f.write(text)], for a
    text that UTF-8 can encode.  The file is written in place: opening
    truncates it, and a device that fills up leaves what it took. *)
Definition write_text (path : str) (text : str) (fs : filesystem)
  : result unit * filesystem :=
  match faults fs !! path with
  | Some Denied => (Raise OSError, fs)
  | Some (NoSpace room) =>
      if (length text <=? room)%nat then (Ok tt, put_file path (Text text) fs)
      else (Raise OSError, put_file path (Text (take room text)) fs)
  | None => (Ok tt, put_file path (Text text) fs)
  end.

(** ** The program *)

(** The part of [QTextEdit] that the editor calls.  The toolkit is not
    part of the repository: its operations are the members of this
    class, and nothing is assumed about them. *)
Class QTextEditOps (E : Type) := {
  QTextEdit_new : E;
  setStyleSheet : str -> E -> E;
  PythonHighlighter : E -> E;
  setHtml : str -> E -> E;
  setPlainText : str -> E -> E;
  toHtml : E -> str;
  toPlainText : E -> str
}.

Section Editor.

Context {E : Type} `{!QTextEditOps E}.

(** [tempfile.gettempdir()], fixed when the module is imported. *)
Variable tempdir : str.

Definition SESSION_FILE : str :=
  os_path_join tempdir (py "hacker_editor_session.json").

(** *** [class EditorTab] *)

Record EditorTab := mkTab {
  text : E;
  path : pyval
}.

(** [QTabWidget]: the pages with their labels, and the current index
    ([None] while there is no page). *)
Record QTabWidget := mkTabs {
  pages : list (EditorTab * str);
  currentIndex : option nat
}.

Definition count (tw : QTabWidget) : nat := length (pages tw).

Definition addTab (tab : EditorTab) (label : str) (tw : QTabWidget) : QTabWidget :=
  {| pages := pages tw ++ [(tab, label)];
     currentIndex := match currentIndex tw with
                     | None => Some 0%nat
                     | Some i => Some i
                     end |}.

Definition currentWidget (tw : QTabWidget) : option EditorTab :=
  match currentIndex tw with
  | Some i => fst <$> (pages tw !! i)
  | None => None
  end.

(** The state the program runs in: the file system and [self.tabs]. *)
Record world := mkWorld {
  fs : filesystem;
  tabs : QTabWidget
}.

(** Computations that read and change the [world] and may raise. *)
Definition M (A : Type) : Type := world -> result A * world.

Definition ret {A} (a : A) : M A := fun w => (Ok a, w).
Definition raise {A} (e : exn) : M A := fun w => (Raise e, w).
Definition bind {A B} (m : M A) (k : A -> M B) : M B :=
  fun w =>
    match m w with
    | (Ok a, w') => k a w'
    | (Raise e, w') => (Raise e, w')
    end.
Definition lift {A} (r : result A) : M A := fun w => (r, w).
Definition get_fs : M filesystem := fun w => (Ok (fs w), w).
Definition get_tabs : M QTabWidget := fun w => (Ok (tabs w), w).
Definition set_tabs (tw : QTabWidget) : M unit :=
  fun w => (Ok tt, {| fs := fs w; tabs := tw |}).

Notation "'let*' x ':=' m 'in' k" := (bind m (fun x => k))
  (at level 10, x name, m at level 200, k at level 200).
Notation "'let*' ' p ':=' m 'in' k" := (bind m (fun x => let 'p := x in k))
  (at level 10, p strict pattern, m at level 200, k at level 200).

(** [for x in xs: body(x)] *)
Fixpoint for_each {A} (xs : list A) (body : A -> M unit) : M unit :=
  match xs with
  | [] => ret tt
  | x :: xs' => let* _ := body x in for_each xs' body
  end.

(** The editor widget as [EditorTab.__init__] sets it up, before any
    content is loaded. *)
Definition fresh_text : E :=
  PythonHighlighter
    (setStyleSheet
       (py "background-color: black; color: #00FF00; font-family: Courier; font-size: 14pt;")
       QTextEdit_new).

(** [EditorTab.__init__(self, path=None, html=None)].  [setHtml] takes
    a [str] and nothing else.  [open] of a truthy path that is not a
    [str] fails: an integer names a file descriptor, none of which is
    open for reading here, and any other type is refused. *)
Definition EditorTab_init (path html : pyval) : M EditorTab :=
  match html with
  | PNone =>
      if truthy path then
        match path with
        | PStr p =>
            let* fs := get_fs in
            let* content := lift (read_text fs p) in
            ret {| text := setPlainText content fresh_text; path := path |}
        | PInt _ | PBool _ => raise OSError
        | _ => raise TypeError
        end
      else ret {| text := fresh_text; path := path |}
  | PStr h => ret {| text := setHtml h fresh_text; path := path |}
  | _ => raise TypeError
  end.

(** [EditorTab.filename] *)
Definition filename (t : EditorTab) : result str :=
  if truthy (path t) then
    match path t with
    | PStr p => Ok (basename p)
    | _ => Raise TypeError
    end
  else Ok (py "Untitled").

(** *** [class HackerEditor] *)

(** [HackerEditor.new_tab] *)
Definition new_tab : M unit :=
  let* tab := EditorTab_init PNone PNone in
  let* label := lift (filename tab) in
  let* tw := get_tabs in
  let tw' := addTab tab label tw in
  set_tabs {| pages := pages tw'; currentIndex := Some (count tw' - 1)%nat |}.

(** What [for item in data] iterates over. *)
Definition py_iter (data : pyval) : result (list pyval) :=
  match data with
  | PList l => Ok l
  | PDict d => Ok (map (fun kv => PStr (fst kv)) d)
  | PStr s => Ok (map (fun c => PStr [c]) s)
  | _ => Raise TypeError
  end.

(** [item.get(key)] *)
Definition py_get (item : pyval) (key : str) : result pyval :=
  match item with
  | PDict d => Ok (dict_get key d)
  | _ => Raise AttributeError
  end.

(** The body of the loop of [load_session]. *)
Definition restore_item (item : pyval) : M unit :=
  let* p := lift (py_get item (py "path")) in
  let* h := lift (py_get item (py "html")) in
  let* tab := EditorTab_init p h in
  let* label := lift (filename tab) in
  let* tw := get_tabs in
  set_tabs (addTab tab label tw).

(** The first statement of [load_session]: reading the record, when
    there is one, and restoring its items. *)
Definition load_session_read : M unit :=
  let* fs := get_fs in
  if os_path_exists fs SESSION_FILE then
    let* content := lift (read_text fs SESSION_FILE) in
    let* data := lift (json_loads content) in
    let* items := lift (py_iter data) in
    for_each items restore_item
  else ret tt.

(** [HackerEditor.load_session] *)
Definition load_session : M unit :=
  let* _ := load_session_read in
  let* tw := get_tabs in
  if (count tw =? 0)%nat then new_tab else ret tt.

(** The entry that [auto_save_session] appends for a tab. *)
Definition session_entry (t : EditorTab) : pyval :=
  PDict [(py "path", path t); (py "html", PStr (toHtml (text t)))].

(** [with open(path, "w", encoding="utf-8") as f: f.write(content)] *)
Definition write_file (path : str) (content : str) : M unit :=
  fun w =>
    let '(r, fs') := write_text path content (fs w) in
    (r, {| fs := fs'; tabs := tabs w |}).

(** [HackerEditor.auto_save_session]; [json.dump(data, f)] writes
    [json.dumps(data)] to [f]. *)
Definition auto_save_session : M unit :=
  let* tw := get_tabs in
  let data := PList (map (fun pg => session_entry (fst pg)) (pages tw)) in
  write_file SESSION_FILE (json_dumps data).

(** *** The other slots that touch [self.tabs] *)

(** [self.tabs.currentWidget()], or the [AttributeError] that
    [None.text] and [None.path] raise. *)
Definition current_tab : M (nat * EditorTab) :=
  let* tw := get_tabs in
  match currentIndex tw with
  | Some i =>
      match pages tw !! i with
      | Some pg => ret (i, fst pg)
      | None => raise AttributeError
      end
  | None => raise AttributeError
  end.

(** Replacing the current page by [tab], with the label
    [tab.filename()]. *)
Definition set_current (i : nat) (tab : EditorTab) : M unit :=
  let* label := lift (filename tab) in
  let* tw := get_tabs in
  set_tabs {| pages := <[i := (tab, label)]> (pages tw);
              currentIndex := currentIndex tw |}.

(** [HackerEditor.open_txt_py]; [picked] is what the file dialog
    returns, the empty [str] when it is cancelled. *)
Definition open_txt_py (picked : str) : M unit :=
  if is_nil picked then ret tt
  else
    let* fs := get_fs in
    let* txt := lift (read_text fs picked) in
    let* '(i, tab) := current_tab in
    set_current i {| text := setPlainText txt (text tab); path := PStr picked |}.

(** [HackerEditor.save_txt].  The file is opened, and so emptied,
    before [self.current()] is evaluated. *)
Definition save_txt (picked : str) : M unit :=
  if is_nil picked then ret tt
  else
    let* tw := get_tabs in
    match currentWidget tw with
    | None => let* _ := write_file picked [] in raise AttributeError
    | Some t =>
        let* _ := write_file picked (toPlainText (text t)) in
        let* '(i, tab) := current_tab in
        set_current i {| text := text tab; path := PStr picked |}
    end.

(** [HackerEditor.save_odt].  [QTextDocumentWriter.write] reports a
    failure by its return value, which is ignored; the file it writes
    is not a text. *)
Definition save_odt (picked : str) : M unit :=
  if is_nil picked then ret tt
  else
    let* '(i, tab) := current_tab in
    let* _ := (fun w =>
                 match faults (fs w) !! picked with
                 | None =>
                     (Ok tt, {| fs := put_file picked (Unreadable UnicodeDecodeError) (fs w);
                                tabs := tabs w |})
                 | Some _ => (Ok tt, w)
                 end) in
    set_current i {| text := text tab; path := PStr picked |}.

(** [HackerEditor.export_pdf]: the printer writes the file, which is
    not a text; nothing of the window changes. *)
Definition export_pdf (picked : str) : M unit :=
  if is_nil picked then ret tt
  else
    let* '(i, tab) := current_tab in
    fun w =>
      match faults (fs w) !! picked with
      | None =>
          (Ok tt, {| fs := put_file picked (Unreadable UnicodeDecodeError) (fs w);
                     tabs := tabs w |})
      | Some _ => (Ok tt, w)
      end.

(** [HackerEditor.change_theme] *)
Definition change_theme (idx : Z) : M unit :=
  let ss := if (idx =? 0)%Z
            then py "background-color:black;color:#00FF00; font-family:Courier; font-size:14pt;"
            else py "background:white;color:black; font-family:Courier; font-size:14pt;" in
  let* tw := get_tabs in
  set_tabs {| pages := map (fun pg => ({| text := setStyleSheet ss (text (fst pg));
                                           path := path (fst pg) |}, snd pg))
                           (pages tw);
              currentIndex := currentIndex tw |}.

(** An edit of the current editor: typing, [undo], [redo],
    [find_replace], [merge], [align]. *)
Definition edit_current (f : E -> E) : M unit :=
  let* '(i, tab) := current_tab in
  let* tw := get_tabs in
  match pages tw !! i with
  | Some pg =>
      set_tabs {| pages := <[i := ({| text := f (text tab); path := path tab |}, snd pg)]> (pages tw);
                  currentIndex := currentIndex tw |}
  | None => ret tt
  end.

(** The user selects a tab of the strip. *)
Definition select_tab (i : nat) : M unit :=
  let* tw := get_tabs in
  if (i <? count tw)%nat
  then set_tabs {| pages := pages tw; currentIndex := Some i |}
  else ret tt.

(** What can happen to the window once it is up. *)
Inductive action :=
  | NewTab
  | AutoSave
  | OpenTxtPy (picked : str)
  | SaveTxt (picked : str)
  | SaveOdt (picked : str)
  | ExportPdf (picked : str)
  | ChangeTheme (idx : Z)
  | Edit (f : E -> E)
  | SelectTab (i : nat).

Definition run (a : action) : M unit :=
  match a with
  | NewTab => new_tab
  | AutoSave => auto_save_session
  | OpenTxtPy picked => open_txt_py picked
  | SaveTxt picked => save_txt picked
  | SaveOdt picked => save_odt picked
  | ExportPdf picked => export_pdf picked
  | ChangeTheme idx => change_theme idx
  | Edit f => edit_current f
  | SelectTab i => select_tab i
  end.

(** The world after an action, whether it returned or raised. *)
Definition step (w : world) (a : action) : world := snd (run a w).

End Editor.

(** * Properties *)

(** ** Strings survive [json.dump] and [json.load] *)

(** A text as the toolkit hands it over: code points of Unicode, where
    no high surrogate stands directly before a low one (what was a pair
    of UTF-16 code units is one character of a Python [str]). *)
Fixpoint well_formed (s : str) : bool :=
  match s with
  | [] => true
  | c :: s' =>
      (c <? 0x110000)
      && negb (is_high_surrogate c
               && match s' with c' :: _ => is_low_surrogate c' | [] => false end)
      && well_formed s'
  end.

Lemma land_shifted a b k : b < 2 ^ k -> N.land (N.shiftl a k) b = 0.
Proof.
  intros Hb. apply N.bits_inj. intros i. rewrite N.land_spec, N.bits_0.
  destruct (N.lt_ge_cases i k) as [Hi | Hi].
  - rewrite N.shiftl_spec_low by assumption. reflexivity.
  - destruct (N.eq_dec b 0) as [-> | Hnz];
      [ rewrite N.bits_0, Bool.andb_false_r; reflexivity |].
    rewrite (N.bits_above_log2 b i), Bool.andb_false_r; [reflexivity |].
    apply N.log2_lt_pow2; [lia |].
    eapply N.lt_le_trans; [exact Hb |]. apply N.pow_le_mono_r; lia.
Qed.

Lemma lor_shifted a b k : b < 2 ^ k -> N.lor (N.shiftl a k) b = a * 2 ^ k + b.
Proof.
  intros Hb. rewrite <- N.shiftl_mul_pow2.
  rewrite N.add_nocarry_lxor by (apply land_shifted; assumption).
  symmetry. apply N.lxor_lor. apply land_shifted; assumption.
Qed.

Lemma hex_value_hex_digit d : d < 16 -> hex_value (hex_digit d) = Some d.
Proof.
  intros Hd. unfold hex_value, hex_digit.
  destruct (N.ltb_spec d 10).
  - replace ((48 <=? 48 + d) && (48 + d <=? 57)) with true
      by (symmetry; apply andb_true_intro; split; apply N.leb_le; lia).
    f_equal. lia.
  - replace ((48 <=? 87 + d) && (87 + d <=? 57)) with false
      by (symmetry; apply andb_false_iff; right; apply N.leb_gt; lia).
    replace ((97 <=? 87 + d) && (87 + d <=? 102)) with true
      by (symmetry; apply andb_true_intro; split; apply N.leb_le; lia).
    f_equal. lia.
Qed.

Lemma decode_u_escape n :
  n < 0x10000 ->
  decode_uXXXX (hex_digit (N.shiftr n 12 mod 16)) (hex_digit (N.shiftr n 8 mod 16))
               (hex_digit (N.shiftr n 4 mod 16)) (hex_digit (n mod 16)) = Some n.
Proof.
  intros Hn. unfold decode_uXXXX.
  rewrite !hex_value_hex_digit by (apply N.mod_lt; lia).
  f_equal. rewrite !N.shiftr_div_pow2.
  change (2 ^ 12) with 4096. change (2 ^ 8) with 256. change (2 ^ 4) with 16.
  pose proof (N.div_mod n 16 ltac:(lia)).
  pose proof (N.div_mod (n / 16) 16 ltac:(lia)).
  pose proof (N.div_mod (n / 16 / 16) 16 ltac:(lia)).
  pose proof (N.div_mod (n / 16 / 16 / 16) 16 ltac:(lia)).
  replace (n / 4096) with (n / 16 / 16 / 16)
    by (rewrite !N.Div0.div_div; reflexivity).
  replace (n / 256) with (n / 16 / 16) by (rewrite !N.Div0.div_div; reflexivity).
  assert (n / 16 / 16 / 16 < 16).
  { rewrite !N.Div0.div_div. apply N.Div0.div_lt_upper_bound. simpl. lia. }
  rewrite (N.mod_small (n / 16 / 16 / 16) 16) by assumption.
  lia.
Qed.

(** The text [X] does not start with the escape of a low surrogate. *)
Definition no_low_escape (X : str) : Prop :=
  forall k1 k2 k3 k4 s4,
    X = 92 :: 117 :: k1 :: k2 :: k3 :: k4 :: s4 ->
    exists uni2, decode_uXXXX k1 k2 k3 k4 = Some uni2 /\ is_low_surrogate uni2 = false.

Lemma scanstring_u h1 h2 h3 h4 uni X :
  decode_uXXXX h1 h2 h3 h4 = Some uni ->
  (is_high_surrogate uni = true -> no_low_escape X) ->
  scanstring (92 :: 117 :: h1 :: h2 :: h3 :: h4 :: X) = cons_chr uni (scanstring X).
Proof.
  intros Hd Hno. cbn [scanstring]. change (92 =? 34) with false.
  change (92 =? 92) with true. change (117 =? 117) with true. cbv iota.
  rewrite Hd. destruct (is_high_surrogate uni) eqn:Hh; [| reflexivity].
  specialize (Hno eq_refl).
  destruct X as [| b [| u [| k1 [| k2 [| k3 [| k4 s4]]]]]]; try reflexivity.
  destruct (N.eqb_spec b 92) as [-> | ?]; [| reflexivity].
  destruct (N.eqb_spec u 117) as [-> | ?]; [| reflexivity].
  destruct (Hno _ _ _ _ _ eq_refl) as (uni2 & -> & ->). reflexivity.
Qed.

Lemma scanstring_pair h1 h2 h3 h4 k1 k2 k3 k4 hi lo X :
  decode_uXXXX h1 h2 h3 h4 = Some hi -> is_high_surrogate hi = true ->
  decode_uXXXX k1 k2 k3 k4 = Some lo -> is_low_surrogate lo = true ->
  scanstring (92 :: 117 :: h1 :: h2 :: h3 :: h4 :: 92 :: 117 :: k1 :: k2 :: k3 :: k4 :: X)
  = cons_chr (join_surrogates hi lo) (scanstring X).
Proof.
  intros Hh Hhi Hk Hlo. cbn [scanstring]. change (92 =? 34) with false.
  change (92 =? 92) with true. change (117 =? 117) with true. cbv iota.
  rewrite Hh, Hhi. cbn [andb]. rewrite Hk, Hlo. reflexivity.
Qed.

(** The two halves that the encoder prints for a character above the
    basic plane, and what the decoder makes of them. *)
Lemma surrogate_halves c :
  0x10000 <= c -> c < 0x110000 ->
  let n := c - 0x10000 in
  let hi := N.lor 0xd800 (N.land (N.shiftr n 10) 0x3ff) in
  let lo := N.lor 0xdc00 (N.land n 0x3ff) in
  hi < 0x10000 /\ lo < 0x10000 /\ is_high_surrogate hi = true
  /\ is_low_surrogate lo = true /\ join_surrogates hi lo = c.
Proof.
  intros Hlo Hhi n hi lo.
  assert (Hn : n < 0x100000) by (unfold n; lia).
  assert (Hq : n / 1024 < 1024) by (apply N.Div0.div_lt_upper_bound; lia).
  assert (Hr : n mod 1024 < 1024) by (apply N.mod_lt; lia).
  assert (Ehi : hi = 0xd800 + n / 1024).
  { unfold hi. change 0x3ff with (N.ones 10). rewrite N.land_ones.
    rewrite N.shiftr_div_pow2. change (2 ^ 10) with 1024.
    rewrite (N.mod_small (n / 1024)) by assumption.
    change 0xd800 with (N.shiftl 54 10).
    rewrite lor_shifted by (change (2 ^ 10) with 1024; assumption). reflexivity. }
  assert (Elo : lo = 0xdc00 + n mod 1024).
  { unfold lo. change 0x3ff with (N.ones 10). rewrite N.land_ones.
    change (2 ^ 10) with 1024. change 0xdc00 with (N.shiftl 55 10).
    rewrite lor_shifted by (change (2 ^ 10) with 1024; assumption). reflexivity. }
  pose proof (N.div_mod n 1024 ltac:(lia)) as Hdm.
  assert (Hc : c = n + 0x10000) by (unfold n; lia).
  clearbody hi lo n. subst hi lo c.
  set (q := n / 1024) in *. set (r := n mod 1024) in *. clearbody q r.
  unfold is_high_surrogate, is_low_surrogate, join_surrogates.
  replace (0xd800 + q - 0xd800) with q by lia.
  replace (0xdc00 + r - 0xdc00) with r by lia.
  rewrite lor_shifted by (change (2 ^ 10) with 1024; assumption).
  change (2 ^ 10) with 1024.
  repeat split; try lia.
  all: apply andb_true_intro; split; apply N.leb_le; lia.
Qed.

(** The shapes [escape_char] can take. *)
Inductive escape_shape (c : N) : str -> Prop :=
  | shape_short x : backslash x = Some c -> x <> 117 -> escape_shape c [92; x]
  | shape_plain : c <> 34 -> c <> 92 -> 32 <= c -> escape_shape c [c]
  | shape_u : c < 0x10000 -> escape_shape c (u_escape c)
  | shape_pair hi lo :
      hi < 0x10000 -> lo < 0x10000 -> is_high_surrogate hi = true ->
      is_low_surrogate lo = true -> join_surrogates hi lo = c ->
      0x10000 <= c ->
      escape_shape c (u_escape hi ++ u_escape lo).

Lemma escape_char_shape c : c < 0x110000 -> escape_shape c (escape_char c).
Proof.
  intros Hc. unfold escape_char.
  destruct (N.eqb_spec c 92) as [-> | ?]; [apply shape_short; [reflexivity | lia] |].
  destruct (N.eqb_spec c 34) as [-> | ?]; [apply shape_short; [reflexivity | lia] |].
  destruct (N.eqb_spec c 8) as [-> | ?]; [apply shape_short; [reflexivity | lia] |].
  destruct (N.eqb_spec c 12) as [-> | ?]; [apply shape_short; [reflexivity | lia] |].
  destruct (N.eqb_spec c 10) as [-> | ?]; [apply shape_short; [reflexivity | lia] |].
  destruct (N.eqb_spec c 13) as [-> | ?]; [apply shape_short; [reflexivity | lia] |].
  destruct (N.eqb_spec c 9) as [-> | ?]; [apply shape_short; [reflexivity | lia] |].
  destruct (N.leb_spec 32 c); cbn [andb].
  - destruct (N.leb_spec c 126); [apply shape_plain; assumption |].
    destruct (N.ltb_spec c 0x10000); [apply shape_u; assumption |].
    destruct (surrogate_halves c) as (? & ? & ? & ? & ?); [lia | lia |].
    apply shape_pair; assumption.
  - destruct (N.ltb_spec c 0x10000); [apply shape_u; assumption | lia].
Qed.

Lemma scanstring_shape c e Y :
  escape_shape c e ->
  (is_high_surrogate c = true -> no_low_escape Y) ->
  scanstring (e ++ Y) = cons_chr c (scanstring Y).
Proof.
  intros [x Hx Hne | H34 H92 H32 | Hc | hi lo Hhi Hlo Hh Hl Hj Hc] Hno.
  - cbn [app scanstring]. change (92 =? 34) with false. change (92 =? 92) with true.
    cbv iota. destruct (N.eqb_spec x 117); [contradiction |]. rewrite Hx. reflexivity.
  - cbn [app scanstring].
    destruct (N.eqb_spec c 34); [contradiction |].
    destruct (N.eqb_spec c 92); [contradiction |].
    destruct (N.ltb_spec c 32); [lia | reflexivity].
  - apply scanstring_u; [apply decode_u_escape; assumption | assumption].
  - unfold u_escape. cbn [app].
    erewrite scanstring_pair; eauto using decode_u_escape. rewrite Hj. reflexivity.
Qed.

Lemma high_not_low c : is_high_surrogate c = true -> is_low_surrogate c = false.
Proof.
  unfold is_high_surrogate, is_low_surrogate. intros H.
  apply andb_true_iff in H as [_ H]. apply N.leb_le in H.
  apply andb_false_iff. left. apply N.leb_gt. lia.
Qed.

Lemma no_low_escape_shape c e Y :
  escape_shape c e -> is_low_surrogate c = false -> no_low_escape (e ++ Y).
Proof.
  intros [x Hx Hne | H34 H92 H32 | Hc | hi lo Hhi Hlo Hh Hl Hj Hc] Hnl
         k1 k2 k3 k4 s4 HX; cbn [app u_escape] in HX.
  - congruence.
  - congruence.
  - injection HX as <- <- <- <- _. exists c. split; [apply decode_u_escape |]; assumption.
  - injection HX as <- <- <- <- _. exists hi.
    split; [apply decode_u_escape; assumption | apply high_not_low; assumption].
Qed.

Lemma no_low_escape_quote rest : no_low_escape (34 :: rest).
Proof. intros k1 k2 k3 k4 s4 HX. discriminate HX. Qed.

(** What [encode_basestring_ascii] prints, [scanstring] reads back. *)
Lemma scanstring_escaped s rest :
  well_formed s = true ->
  scanstring (flat_map escape_char s ++ 34 :: rest) = Some (s, rest).
Proof.
  induction s as [| c s IH]; intros Hwf.
  - reflexivity.
  - cbn [well_formed] in Hwf.
    apply andb_true_iff in Hwf as [Hwf Hs]. apply andb_true_iff in Hwf as [Hc Hpair].
    apply N.ltb_lt in Hc. cbn [flat_map]. rewrite <- app_assoc.
    rewrite (scanstring_shape c) by
      (first [ apply escape_char_shape; assumption
             | intros Hh; rewrite Hh in Hpair; destruct s as [| c' s'];
               [ apply no_low_escape_quote
               | cbn [flat_map]; rewrite <- app_assoc;
                 apply (no_low_escape_shape c');
                 [ apply escape_char_shape; cbn [well_formed] in Hs;
                   apply andb_true_iff in Hs as [Hs _];
                   apply andb_true_iff in Hs as [Hs _]; apply N.ltb_lt; exact Hs
                 | cbn [andb negb] in Hpair; apply negb_true_iff; exact Hpair ] ] ]).
    rewrite IH by assumption. reflexivity.
Qed.

Lemma scanstring_encoded s rest :
  well_formed s = true ->
  scanstring (tl (encode_basestring_ascii s) ++ rest) = Some (s, rest).
Proof.
  intros Hwf. unfold encode_basestring_ascii. cbn [tl].
  rewrite <- app_assoc. apply scanstring_escaped. assumption.
Qed.

(** ** Where well-formed texts come from *)

(** How the UTF-16 code units of a [QString] become a Python [str]: a
    high surrogate and the low surrogate after it are one character. *)
Fixpoint str_of_utf16 (u : list N) : str :=
  match u with
  | [] => []
  | hi :: u' =>
      match u' with
      | lo :: rest =>
          if is_high_surrogate hi && is_low_surrogate lo
          then join_surrogates hi lo :: str_of_utf16 rest
          else hi :: str_of_utf16 u'
      | [] => [hi]
      end
  end.

Lemma str_of_utf16_pair hi lo rest :
  str_of_utf16 (hi :: lo :: rest)
  = if is_high_surrogate hi && is_low_surrogate lo
    then join_surrogates hi lo :: str_of_utf16 rest
    else hi :: str_of_utf16 (lo :: rest).
Proof. reflexivity. Qed.

Lemma join_surrogates_range hi lo :
  is_high_surrogate hi = true -> is_low_surrogate lo = true ->
  0x10000 <= join_surrogates hi lo < 0x110000.
Proof.
  unfold is_high_surrogate, is_low_surrogate, join_surrogates. intros Hh Hl.
  apply andb_true_iff in Hh as [Hh1 Hh2]. apply andb_true_iff in Hl as [Hl1 Hl2].
  apply N.leb_le in Hh1, Hh2, Hl1, Hl2.
  rewrite lor_shifted by (change (2 ^ 10) with 1024; lia).
  change (2 ^ 10) with 1024. lia.
Qed.

Lemma not_surrogate_above c :
  0x10000 <= c -> is_high_surrogate c = false /\ is_low_surrogate c = false.
Proof.
  intros Hc. unfold is_high_surrogate, is_low_surrogate.
  split; apply andb_false_iff; right; apply N.leb_gt; lia.
Qed.

Lemma str_of_utf16_head lo rest :
  exists c s, str_of_utf16 (lo :: rest) = c :: s /\ (c = lo \/ 0x10000 <= c).
Proof.
  cbn [str_of_utf16]. destruct rest as [| x rest]; [eauto |].
  destruct (is_high_surrogate lo && is_low_surrogate x) eqn:Hp; [| eauto].
  apply andb_true_iff in Hp as [Hh Hl].
  do 2 eexists. split; [reflexivity |]. right.
  apply join_surrogates_range; assumption.
Qed.

Lemma well_formed_cons c s :
  well_formed (c :: s)
  = (c <? 0x110000)
    && negb (is_high_surrogate c
             && match s with c' :: _ => is_low_surrogate c' | [] => false end)
    && well_formed s.
Proof. reflexivity. Qed.

(** Every text that comes from UTF-16 code units is well-formed. *)
Lemma str_of_utf16_well_formed u :
  Forall (fun c => c < 0x10000) u -> well_formed (str_of_utf16 u) = true.
Proof.
  remember (length u) as n eqn:Hn. revert u Hn.
  induction n as [n IH] using lt_wf_ind. intros u -> Hu.
  destruct u as [| hi [| lo rest]]; [reflexivity | |].
  - inversion_clear Hu as [| ? ? Hhi _]. cbn [str_of_utf16 well_formed].
    rewrite andb_false_r. cbn [negb]. rewrite !andb_true_r. apply N.ltb_lt. lia.
  - inversion_clear Hu as [| ? ? Hhi Hu']. inversion Hu' as [| ? ? Hlo Hrest]; subst.
    rewrite str_of_utf16_pair.
    destruct (is_high_surrogate hi && is_low_surrogate lo) eqn:Hp.
    + apply andb_true_iff in Hp as [Hh Hl].
      destruct (join_surrogates_range hi lo Hh Hl) as [Hge Hlt].
      cbn [well_formed]. destruct (not_surrogate_above _ Hge) as [-> _].
      cbn [andb negb]. rewrite (IH (length rest)); [| cbn [length]; lia | reflexivity | assumption].
      rewrite !andb_true_r. apply N.ltb_lt. exact Hlt.
    + destruct (str_of_utf16_head lo rest) as (c & s & Hs & Hc).
      assert (Htl : well_formed (str_of_utf16 (lo :: rest)) = true)
        by (apply (IH (length (lo :: rest))); [cbn [length]; lia | reflexivity | assumption]).
      rewrite Hs in *. rewrite (well_formed_cons hi), Htl, andb_true_r. apply andb_true_intro. split; [apply N.ltb_lt; lia |].
      apply negb_true_iff. destruct Hc as [-> | Hc]; [exact Hp |].
      destruct (not_surrogate_above _ Hc) as [_ ->]. apply andb_false_r.
Qed.

(** The condition is needed: a high and a low surrogate that stand side
    by side in a [str] are written as two escapes and read back as one
    character. *)
Lemma surrogates_joined :
  json_loads (json_dumps (PStr [0xd83d; 0xde00])) = Ok (PStr [0x1f600]).
Proof. vm_compute. reflexivity. Qed.

(** ** The record survives [json.dump] and [json.load] *)

(** The paths a tab has in normal use: [None], or a well-formed [str]. *)
Definition storable_path (p : pyval) : bool :=
  match p with
  | PNone => true
  | PStr s => well_formed s
  | _ => false
  end.

Definition entry (p : pyval) (h : str) : pyval :=
  PDict [(py "path", p); (py "html", PStr h)].

Lemma scan_once_str d s rest :
  well_formed s = true ->
  scan_once (S d) (json_dumps (PStr s) ++ rest) = POk (PStr s, rest).
Proof.
  intros Hwf. cbn [json_dumps]. unfold encode_basestring_ascii.
  cbn [app scan_once]. change (34 =? 34) with true. cbv iota.
  rewrite <- app_assoc. cbn [app]. rewrite scanstring_escaped by assumption.
  reflexivity.
Qed.

Lemma scan_once_path d p rest :
  storable_path p = true ->
  scan_once (S d) (json_dumps p ++ rest) = POk (p, rest)
  /\ skip_ws (json_dumps p ++ rest) = json_dumps p ++ rest.
Proof.
  destruct p; try discriminate; intros Hp.
  - split; reflexivity.
  - split; [apply scan_once_str; exact Hp | reflexivity].
Qed.

Lemma dumps_entry p h rest :
  json_dumps (entry p h) ++ rest
  = 123 :: [34; 112; 97; 116; 104; 34; 58; 32] ++ json_dumps p
        ++ [44; 32; 34; 104; 116; 109; 108; 34; 58; 32]
        ++ json_dumps (PStr h) ++ 125 :: rest.
Proof.
  unfold entry. cbn [json_dumps map join_items fst snd].
  change (encode_basestring_ascii (py "path") ++ py ": ")
    with [34; 112; 97; 116; 104; 34; 58; 32].
  change (py ", ") with [44; 32].
  change (encode_basestring_ascii (py "html") ++ py ": ")
    with [34; 104; 116; 109; 108; 34; 58; 32].
  cbn [app]. repeat rewrite <- app_assoc. reflexivity.
Qed.

Lemma scan_once_entry d p h rest :
  storable_path p = true -> well_formed h = true ->
  scan_once (S (S d)) (json_dumps (entry p h) ++ rest) = POk (entry p h, rest).
Proof.
  intros Hp Hh. rewrite dumps_entry.
  destruct (scan_once_path d p ([44; 32; 34; 104; 116; 109; 108; 34; 58; 32]
                                 ++ json_dumps (PStr h) ++ 125 :: rest) Hp)
    as [Hscan Hws].
  destruct (scan_once_path d (PStr h) (125 :: rest) Hh) as [Hscan2 Hws2].
  cbn [app] in *.
  change (scan_once (S (S d)) (123 :: ?s)) with (JSONObject (scan_once (S d)) s).
  unfold JSONObject. cbn -[json_dumps scan_once].
  rewrite Hws, Hscan. cbn -[json_dumps scan_once].
  rewrite Hws2, Hscan2. reflexivity.
Qed.

(** The loop of [JSONArray] reads back a joined list of items, each of
    which [scan] reads back. *)
Lemma array_items_join scan (l : list pyval) :
  (forall v r, In v l ->
     scan (json_dumps v ++ r) = POk (v, r)
     /\ skip_ws (json_dumps v ++ r) = json_dumps v ++ r) ->
  l <> [] ->
  forall n rest, (length l <= n)%nat ->
  array_items scan n (join_items (map json_dumps l) ++ 93 :: rest) = POk (l, rest).
Proof.
  induction l as [| v l IH]; intros Hscan Hne n rest Hn; [contradiction |].
  destruct n as [| n]; [cbn in Hn; lia |].
  destruct (Hscan v (93 :: rest) (or_introl eq_refl)) as [Hv _].
  destruct l as [| v' l].
  - cbn [map join_items array_items]. rewrite Hv. reflexivity.
  - destruct (Hscan v (py ", " ++ join_items (map json_dumps (v' :: l)) ++ 93 :: rest)
                (or_introl eq_refl)) as [Hv1 _].
    destruct (Hscan v' (match l with
                        | [] => []
                        | _ => py ", " ++ join_items (map json_dumps l)
                        end ++ 93 :: rest) (or_intror (or_introl eq_refl)))
      as [_ Hws].
    change (join_items (map json_dumps (v :: v' :: l)))
      with (json_dumps v ++ py ", " ++ join_items (map json_dumps (v' :: l))).
    rewrite <- !app_assoc. cbn [array_items]. rewrite Hv1.
    change (py ", ") with [44; 32]. cbn [app].
    change (skip_ws (44 :: 32 :: ?X)) with (44 :: 32 :: X).
    change (44 =? 93) with false. change (44 =? 44) with true. cbv iota.
    change (skip_ws (32 :: ?X)) with (skip_ws X).
    assert (Hskip : skip_ws (join_items (map json_dumps (v' :: l)) ++ 93 :: rest)
                    = join_items (map json_dumps (v' :: l)) ++ 93 :: rest).
    { destruct l as [| v'' l].
      - cbn [map join_items] in *. exact Hws.
      - change (join_items (map json_dumps (v' :: v'' :: l)))
          with (json_dumps v' ++ py ", " ++ join_items (map json_dumps (v'' :: l))).
        rewrite <- !app_assoc in *. exact Hws. }
    rewrite Hskip.
    rewrite IH; [reflexivity | | discriminate | cbn [length] in *; lia].
    intros w r Hw. apply Hscan. right. exact Hw.
Qed.

(** A record as [auto_save_session] builds it in normal use. *)
Definition is_entry (v : pyval) : Prop :=
  exists p h, v = entry p h /\ storable_path p = true /\ well_formed h = true.

Lemma dumps_entry_head v rest :
  is_entry v -> exists t, json_dumps v ++ rest = 123 :: t.
Proof. intros (p & h & -> & _). rewrite dumps_entry. eexists. reflexivity. Qed.

Lemma join_items_head (x : str) xs rest :
  exists r, join_items (x :: xs) ++ rest = x ++ r.
Proof.
  destruct xs as [| y ys].
  - exists rest. reflexivity.
  - exists (py ", " ++ join_items (y :: ys) ++ rest).
    cbn [join_items]. rewrite <- !app_assoc. reflexivity.
Qed.

Lemma join_items_length (l : list pyval) rest :
  Forall is_entry l ->
  (length l <= length (join_items (map json_dumps l) ++ rest))%nat.
Proof.
  induction 1 as [| v l Hv Hl IH]; [cbn; lia |].
  destruct l as [| v' l].
  - destruct (dumps_entry_head v rest Hv) as [t Ht].
    cbn [map join_items length]. rewrite Ht. cbn [length]. lia.
  - change (join_items (map json_dumps (v :: v' :: l)))
      with (json_dumps v ++ py ", " ++ join_items (map json_dumps (v' :: l))).
    rewrite <- !app_assoc.
    destruct (dumps_entry_head v (py ", " ++ join_items (map json_dumps (v' :: l)) ++ rest) Hv)
      as [t Ht].
    rewrite Ht. apply (f_equal (@length N)) in Ht.
    rewrite !length_app in *. change (length (py ", ")) with 2%nat in Ht.
    cbn [length] in *. lia.
Qed.

Lemma scan_once_is_entry d v rest :
  is_entry v ->
  scan_once (S (S d)) (json_dumps v ++ rest) = POk (v, rest)
  /\ skip_ws (json_dumps v ++ rest) = json_dumps v ++ rest.
Proof.
  intros Hv. split.
  - destruct Hv as (p & h & -> & Hp & Hh). apply scan_once_entry; assumption.
  - destruct (dumps_entry_head v rest Hv) as [t ->]. reflexivity.
Qed.

Lemma scan_once_record d (l : list pyval) :
  Forall is_entry l ->
  scan_once (S (S (S d))) (json_dumps (PList l)) = POk (PList l, []).
Proof.
  intros Hl. cbn [json_dumps].
  change (scan_once (S (S (S d))) (91 :: ?X)) with (JSONArray (scan_once (S (S d))) X).
  unfold JSONArray.
  destruct l as [| v l]; [reflexivity |].
  assert (Hv : is_entry v) by (inversion Hl; assumption).
  destruct (join_items_head (json_dumps v) (map json_dumps l) [93]) as [r Hr].
  destruct (dumps_entry_head v r Hv) as [t Ht].
  assert (Hskip : skip_ws (join_items (map json_dumps (v :: l)) ++ [93])
                  = join_items (map json_dumps (v :: l)) ++ [93]).
  { cbn [map]. rewrite Hr, Ht. reflexivity. }
  rewrite Hskip.
  assert (Hlen := join_items_length (v :: l) [93] Hl).
  rewrite array_items_join.
  - cbn [map] in *. rewrite Hr, Ht. reflexivity.
  - intros w r' Hw. apply scan_once_is_entry.
    rewrite Forall_forall in Hl. apply Hl. apply list_elem_of_In. exact Hw.
  - discriminate.
  - lia.
Qed.

Lemma recursion_limit_eq : recursion_limit = S (S (S 997)).
Proof. reflexivity. Qed.

(** [json.load] reads back the record that [json.dump] wrote. *)
Lemma json_loads_dumps_record (l : list pyval) :
  Forall is_entry l ->
  json_loads (json_dumps (PList l)) = Ok (PList l).
Proof.
  intros Hl. unfold json_loads. rewrite recursion_limit_eq.
  replace (skip_ws (json_dumps (PList l))) with (json_dumps (PList l)) by reflexivity.
  rewrite scan_once_record by assumption. reflexivity.
Qed.

(** ** The scanner always answers *)

Lemma skip_ws_length s : (length (skip_ws s) <= length s)%nat.
Proof.
  induction s as [| c s IH]; cbn [skip_ws]; [lia |].
  destruct (is_ws c); cbn [length]; lia.
Qed.

Lemma cons_chr_length c o k r :
  cons_chr c o = Some (k, r) -> exists k', o = Some (k', r).
Proof.
  destruct o as [[k' r'] |]; cbn [cons_chr]; [| discriminate].
  intros [= _ <-]. eexists. reflexivity.
Qed.

(** [scanstring] consumes at least the closing quote. *)
Lemma scanstring_length n : forall s k r,
  (length s <= n)%nat -> scanstring s = Some (k, r) -> (length r < length s)%nat.
Proof.
  induction n as [| n IH]; intros s k r Hn Hs.
  { destruct s; [discriminate | cbn in Hn; lia]. }
  assert (Hrec : forall s' c k r, (length s' <= n)%nat ->
                   cons_chr c (scanstring s') = Some (k, r) -> (length r < length s')%nat).
  { intros s' c k0 r0 Hl Hc. apply cons_chr_length in Hc as [k' Hc]. eapply IH; eassumption. }
  destruct s as [| c s1]; [discriminate |]. cbn [scanstring] in Hs. cbn [length] in *.
  destruct (c =? 34); [injection Hs as _ <-; lia |].
  destruct (c =? 92).
  - destruct s1 as [| esc s2]; [discriminate |]. cbn [length] in *.
    destruct (esc =? 117).
    + destruct s2 as [| h1 [| h2 [| h3 [| h4 s3]]]]; try discriminate. cbn [length] in *.
      destruct (decode_uXXXX h1 h2 h3 h4) as [uni |]; [| discriminate].
      destruct (is_high_surrogate uni).
      * destruct s3 as [| b [| u [| k1 [| k2 [| k3 [| k4 s4]]]]]];
          try (apply Hrec in Hs; cbn [length] in *; lia).
        destruct ((b =? 92) && (u =? 117));
          [| apply Hrec in Hs; cbn [length] in *; lia].
        destruct (decode_uXXXX k1 k2 k3 k4) as [uni2 |]; [| discriminate].
        destruct (is_low_surrogate uni2); apply Hrec in Hs; cbn [length] in *; lia.
      * apply Hrec in Hs; lia.
    + destruct (backslash esc); [| discriminate]. apply Hrec in Hs; lia.
  - destruct (c <? 32); [discriminate |]. apply Hrec in Hs; lia.
Qed.

(** A scanner that uses up text and never runs out of counter. *)
Definition consuming {A} (scan : str -> presult (A * str)) : Prop :=
  forall s, scan s <> PFuel
            /\ forall v r, scan s = POk (v, r) -> (length r < length s)%nat.

Lemma array_items_consuming scan :
  consuming scan ->
  forall n s, (length s < n)%nat ->
    array_items scan n s <> PFuel
    /\ forall vs r, array_items scan n s = POk (vs, r) -> (length r < length s)%nat.
Proof.
  intros Hscan. induction n as [| n IH]; intros s Hn; [lia |].
  cbn [array_items]. destruct (Hscan s) as [Hf Hl].
  destruct (scan s) as [[v r] | e |]; [| split; [discriminate | intros ? ? [=]] | contradiction].
  specialize (Hl v r eq_refl). pose proof (skip_ws_length r) as Hws.
  destruct (skip_ws r) as [| c r']; [split; [discriminate | intros ? ? [=]] |].
  cbn [length] in Hws.
  destruct (c =? 93); [split; [discriminate | intros ? ? [= _ <-]; lia] |].
  destruct (c =? 44); [| split; [discriminate | intros ? ? [=]]].
  pose proof (skip_ws_length r') as Hws'.
  destruct (IH (skip_ws r') ltac:(lia)) as [Hf' Hl'].
  destruct (array_items scan n (skip_ws r')) as [[vs r''] | e |];
    [| split; [discriminate | intros ? ? [=]] | contradiction].
  specialize (Hl' vs r'' eq_refl).
  split; [discriminate | intros ? ? [= _ <-]; lia].
Qed.

Lemma object_items_consuming scan :
  consuming scan ->
  forall n s, (length s < n)%nat ->
    object_items scan n s <> PFuel
    /\ forall kvs r, object_items scan n s = POk (kvs, r) -> (length r < length s)%nat.
Proof.
  intros Hscan. induction n as [| n IH]; intros s Hn; [lia |].
  cbn [object_items].
  destruct (scanstring s) as [[key r] |] eqn:Hkey;
    [| split; [discriminate | intros ? ? [=]]].
  apply (scanstring_length (length s)) in Hkey; [| lia].
  pose proof (skip_ws_length r) as Hws.
  destruct (skip_ws r) as [| colon r1]; [split; [discriminate | intros ? ? [=]] |].
  cbn [length] in Hws.
  destruct (negb (colon =? 58)); [split; [discriminate | intros ? ? [=]] |].
  pose proof (skip_ws_length r1) as Hws1.
  destruct (Hscan (skip_ws r1)) as [Hf Hl].
  destruct (scan (skip_ws r1)) as [[v r2] | e |];
    [| split; [discriminate | intros ? ? [=]] | contradiction].
  specialize (Hl v r2 eq_refl). pose proof (skip_ws_length r2) as Hws2.
  destruct (skip_ws r2) as [| c r3]; [split; [discriminate | intros ? ? [=]] |].
  cbn [length] in Hws2.
  destruct (c =? 125); [split; [discriminate | intros ? ? [= _ <-]; lia] |].
  destruct (c =? 44); [| split; [discriminate | intros ? ? [=]]].
  pose proof (skip_ws_length r3) as Hws3.
  destruct (skip_ws r3) as [| q r4]; [split; [discriminate | intros ? ? [=]] |].
  cbn [length] in Hws3.
  destruct (negb (q =? 34)); [split; [discriminate | intros ? ? [=]] |].
  destruct (IH r4 ltac:(lia)) as [Hf' Hl'].
  destruct (object_items scan n r4) as [[kvs r5] | e |];
    [| split; [discriminate | intros ? ? [=]] | contradiction].
  specialize (Hl' kvs r5 eq_refl).
  split; [discriminate | intros ? ? [= _ <-]; lia].
Qed.

Lemma JSONArray_consuming scan s :
  consuming scan ->
  JSONArray scan s <> PFuel
  /\ forall v r, JSONArray scan s = POk (v, r) -> (length r <= length s)%nat.
Proof.
  intros Hscan. unfold JSONArray. pose proof (skip_ws_length s) as Hws.
  destruct (match skip_ws s with c :: _ => c =? 93 | [] => false end).
  - split; [discriminate |]. intros ? ? [= _ <-].
    destruct (skip_ws s); cbn [tl length] in *; lia.
  - destruct (array_items_consuming scan Hscan (S (length (skip_ws s))) (skip_ws s)
                ltac:(lia)) as [Hf Hl].
    destruct (array_items scan _ _) as [[vs r] | e |];
      [| split; [discriminate | intros ? ? [=]] | contradiction].
    specialize (Hl vs r eq_refl).
    split; [discriminate | intros ? ? [= _ <-]; lia].
Qed.

Lemma JSONObject_consuming scan s :
  consuming scan ->
  JSONObject scan s <> PFuel
  /\ forall v r, JSONObject scan s = POk (v, r) -> (length r <= length s)%nat.
Proof.
  intros Hscan. unfold JSONObject. pose proof (skip_ws_length s) as Hws.
  destruct (skip_ws s) as [| c r]; [split; [discriminate | intros ? ? [=]] |].
  cbn [length] in Hws.
  destruct (c =? 125); [split; [discriminate | intros ? ? [= _ <-]; lia] |].
  destruct (c =? 34); [| split; [discriminate | intros ? ? [=]]].
  destruct (object_items_consuming scan Hscan (S (length r)) r ltac:(lia)) as [Hf Hl].
  destruct (object_items scan _ _) as [[kvs r'] | e |];
    [| split; [discriminate | intros ? ? [=]] | contradiction].
  specialize (Hl kvs r' eq_refl).
  split; [discriminate | intros ? ? [= _ <-]; lia].
Qed.

Lemma span_digits_length s ds r :
  span_digits s = (ds, r) -> length s = (length ds + length r)%nat.
Proof.
  revert ds r. induction s as [| c s IH]; intros ds r; cbn [span_digits].
  - intros [= <- <-]. reflexivity.
  - destruct (is_digit c); [| intros [= <- <-]; reflexivity].
    destruct (span_digits s) as [ds' r']. intros [= <- <-].
    cbn [length]. rewrite (IH ds' r' eq_refl). reflexivity.
Qed.

Lemma strip_prefix_length p s r :
  strip_prefix p s = Some r -> length s = (length p + length r)%nat.
Proof.
  revert s. induction p as [| a p IH]; intros s; cbn [strip_prefix].
  - intros [= <-]. reflexivity.
  - destruct s as [| b s]; [discriminate |]. destruct (a =? b); [| discriminate].
    intros H. cbn [length]. rewrite (IH s H). reflexivity.
Qed.

Lemma match_number_length s f lit r :
  match_number s = Some (f, lit, r) -> (length r < length s)%nat.
Proof.
  unfold match_number. intros H.
  repeat case_match; simplify_eq;
    repeat match goal with
           | Hs : span_digits _ = _ |- _ => apply span_digits_length in Hs
           end;
    cbn [length] in *; lia.
Qed.

Lemma scan_literal_consuming s :
  scan_literal s <> PFuel
  /\ forall v r, scan_literal s = POk (v, r) -> (length r < length s)%nat.
Proof.
  unfold scan_literal.
  repeat match goal with
         | |- context [strip_prefix ?p s] =>
             let H := fresh "H" in
             destruct (strip_prefix p s) eqn:H;
             [ apply strip_prefix_length in H; cbn [py map list_ascii_of_string length] in H;
               split; [discriminate | intros ? ? [= _ <-]; lia] |]
         | |- context [match_number s] =>
             let H := fresh "H" in
             destruct (match_number s) as [[[? ?] ?] |] eqn:H;
             [ apply match_number_length in H;
               split; [discriminate | intros ? ? [= _ <-]; lia] |]
         end.
  split; [discriminate | intros ? ? [=]].
Qed.

(** The scanner uses up text, and its loops never run out of counter. *)
Lemma scan_once_consuming depth : consuming (scan_once depth).
Proof.
  induction depth as [| depth IH]; intros s; cbn [scan_once].
  - split; [discriminate | intros ? ? [=]].
  - destruct s as [| c s1]; [split; [discriminate | intros ? ? [=]] |].
    destruct (c =? 34).
    + destruct (scanstring s1) as [[k r] |] eqn:Hk;
        [| split; [discriminate | intros ? ? [=]]].
      apply (scanstring_length (length s1)) in Hk; [| lia].
      split; [discriminate | intros ? ? [= _ <-]; cbn [length]; lia].
    + destruct (c =? 123).
      * destruct (JSONObject_consuming (scan_once depth) s1 IH) as [Hf Hl].
        split; [exact Hf |]. intros v r Hr. specialize (Hl v r Hr). cbn [length]. lia.
      * destruct (c =? 91); [| apply scan_literal_consuming].
        destruct (JSONArray_consuming (scan_once depth) s1 IH) as [Hf Hl].
        split; [exact Hf |]. intros v r Hr. specialize (Hl v r Hr). cbn [length]. lia.
Qed.

(** [json_loads] raises [RecursionError] only for nesting beyond the
    limit: the loop counters of the scanner do not run out. *)
Lemma json_loads_counters s : scan_once recursion_limit (skip_ws s) <> PFuel.
Proof. apply scan_once_consuming. Qed.

(** ** The session store *)

Section Session.

Context {E : Type} `{!QTextEditOps E}.
Variable tempdir : str.

Local Abbreviation SESSION := (SESSION_FILE tempdir).

(** The window of a process that has just started: [QTabWidget()]. *)
Definition no_tabs : QTabWidget (E := E) := mkTabs [] None.

Definition startup (fs : filesystem) : world (E := E) := mkWorld fs no_tabs.

(** The open documents, in tab order. *)
Definition session (w : world (E := E)) : list EditorTab :=
  map fst (pages (tabs w)).

(** What a Document of the record becomes when it is restored: its
    path, and an editor that was given exactly its markup. *)
Definition restored (t : EditorTab (E := E)) : EditorTab :=
  mkTab (setHtml (toHtml (text t)) fresh_text) (path t).

(** The documents of normal use: the path is [None] or a [str], and
    path and markup are well-formed texts. *)
Definition session_ok (s : list (EditorTab (E := E))) : bool :=
  forallb (fun t => storable_path (path t) && well_formed (toHtml (text t))) s.

(** The label [filename] gives a tab. *)
Definition tab_label (p : pyval) : str :=
  match p with
  | PStr (c :: s) => basename (c :: s)
  | _ => py "Untitled"
  end.

(** Adding several tabs in a row. *)
Definition addTabs (ts : list (EditorTab (E := E) * str)) (tw : QTabWidget) : QTabWidget :=
  mkTabs (pages tw ++ ts)
         (match currentIndex tw, pages tw ++ ts with
          | None, _ :: _ => Some 0%nat
          | c, _ => c
          end).

Lemma addTabs_nil tw : addTabs [] tw = tw \/ (currentIndex tw = None /\ pages tw <> []).
Proof.
  destruct tw as [pg [i |]]; unfold addTabs; cbn; rewrite app_nil_r.
  - left. reflexivity.
  - destruct pg; [left; reflexivity | right; split; [reflexivity | discriminate]].
Qed.

(** The state of [QTabWidget] that the program maintains: there is a
    current page as soon as there is a page. *)
Definition tabs_wf (tw : QTabWidget (E := E)) : Prop :=
  currentIndex tw = None -> pages tw = [].

Lemma addTab_wf t l tw : tabs_wf (addTab t l tw).
Proof. unfold tabs_wf, addTab. cbn. destruct (currentIndex tw); discriminate. Qed.

Lemma addTabs_cons t l ts tw :
  tabs_wf tw -> addTabs ts (addTab t l tw) = addTabs ((t, l) :: ts) tw.
Proof.
  intros Hwf. unfold addTabs, addTab. cbn [pages currentIndex].
  rewrite <- app_assoc. cbn [app]. f_equal.
  destruct (currentIndex tw) eqn:Hc; [reflexivity |].
  rewrite (Hwf Hc). reflexivity.
Qed.

(** An object of the record that can be restored without anything
    else: its [path] is missing, [null] or a string, and its [html] is
    a string, or its [html] is missing or [null] and it names no file. *)
Definition self_contained (d : list (str * pyval)) : bool :=
  match dict_get (py "html") d with
  | PStr _ =>
      match dict_get (py "path") d with
      | PNone | PStr _ => true
      | _ => false
      end
  | PNone =>
      match dict_get (py "path") d with
      | PNone | PStr [] => true
      | _ => false
      end
  | _ => false
  end.

(** The tab that such an object becomes. *)
Definition restore_of (d : list (str * pyval)) : EditorTab (E := E) :=
  mkTab (match dict_get (py "html") d with
         | PStr h => setHtml h fresh_text
         | _ => fresh_text
         end)
        (dict_get (py "path") d).

Lemma restore_item_dict d (w : world) :
  self_contained d = true ->
  restore_item (PDict d) w
  = (Ok tt, mkWorld (fs w)
              (addTab (restore_of d) (tab_label (dict_get (py "path") d)) (tabs w))).
Proof.
  unfold self_contained, restore_of, restore_item, bind, lift. cbn [py_get].
  destruct (dict_get (py "html") d) as [| | | | h | |]; try discriminate;
    destruct (dict_get (py "path") d) as [| | | | [| c p] | |]; try discriminate;
    reflexivity.
Qed.

Lemma for_each_restore_dicts (ds : list (list (str * pyval))) (w : world) :
  tabs_wf (tabs w) ->
  forallb self_contained ds = true ->
  for_each (map PDict ds) restore_item w
  = (Ok tt, mkWorld (fs w)
              (addTabs (map (fun d => (restore_of d, tab_label (dict_get (py "path") d))) ds)
                       (tabs w))).
Proof.
  revert w. induction ds as [| d ds IH]; intros w Hwf Hok.
  - cbn [map for_each ret]. f_equal. destruct w as [f tw]. cbn [fs tabs] in *. f_equal.
    destruct (addTabs_nil tw) as [-> | [Hc Hp]]; [reflexivity |].
    exfalso. apply Hp, Hwf, Hc.
  - cbn [forallb] in Hok. apply andb_true_iff in Hok as [Hd Hok].
    cbn [map for_each]. unfold bind at 1.
    rewrite restore_item_dict by assumption.
    rewrite IH; [| apply addTab_wf | assumption].
    cbn [fs tabs]. rewrite addTabs_cons by assumption. reflexivity.
Qed.

(** The entries that a save writes are of this kind. *)
Lemma entry_self_contained (t : EditorTab) :
  storable_path (path t) = true ->
  session_entry t = PDict [(py "path", path t); (py "html", PStr (toHtml (text t)))]
  /\ self_contained [(py "path", path t); (py "html", PStr (toHtml (text t)))] = true
  /\ restore_of [(py "path", path t); (py "html", PStr (toHtml (text t)))] = restored t
  /\ dict_get (py "path") [(py "path", path t); (py "html", PStr (toHtml (text t)))]
     = path t.
Proof.
  intros Hp. unfold self_contained, restore_of, restored. cbn [dict_get].
  rewrite !(decide_True (P := py "path" = py "path")) by reflexivity.
  rewrite !(decide_False (P := py "html" = py "path")) by discriminate.
  rewrite !(decide_True (P := py "html" = py "html")) by reflexivity.
  repeat split. destruct (path t); try discriminate; reflexivity.
Qed.

(** What [auto_save_session] hands to [json.dump]. *)
Definition session_data (s : list (EditorTab (E := E))) : pyval :=
  PList (map session_entry s).

Lemma auto_save_session_eq (w : world) :
  auto_save_session tempdir w
  = let '(r, fs') := write_text SESSION (json_dumps (session_data (session w))) (fs w) in
    (r, mkWorld fs' (tabs w)).
Proof.
  unfold auto_save_session, bind, get_tabs, write_file, session_data, session.
  rewrite map_map. reflexivity.
Qed.

(** A save that returns has replaced the record by the whole session. *)
Lemma auto_save_session_ok (w w1 : world) :
  auto_save_session tempdir w = (Ok tt, w1) ->
  w1 = mkWorld (put_file SESSION (Text (json_dumps (session_data (session w)))) (fs w))
               (tabs w).
Proof.
  rewrite auto_save_session_eq. unfold write_text.
  destruct (faults (fs w) !! SESSION) as [[| room] |].
  - discriminate.
  - destruct (_ <=? _)%nat; [| discriminate]. intros [= <-]. reflexivity.
  - intros [= <-]. reflexivity.
Qed.

Lemma session_ok_entries (s : list EditorTab) :
  session_ok s = true -> Forall is_entry (map session_entry s).
Proof.
  unfold session_ok. rewrite forallb_forall, Forall_forall.
  intros Hs v Hv. apply list_elem_of_In, in_map_iff in Hv as (t & <- & Ht).
  specialize (Hs t Ht). apply andb_true_iff in Hs as [Hp Hh].
  exists (path t), (toHtml (text t)). repeat split; assumption.
Qed.

(** Reading a record that holds the session [s]. *)
Lemma load_session_read_record (fs0 : filesystem) (s : list EditorTab) :
  session_ok s = true ->
  files fs0 !! SESSION = Some (Text (json_dumps (session_data s))) ->
  load_session_read tempdir (startup fs0)
  = (Ok tt, mkWorld fs0
              (addTabs (map (fun t => (restored t, tab_label (path t))) s) no_tabs)).
Proof.
  intros Hok Hfile. unfold load_session_read, bind, get_fs, lift, startup.
  cbn [fs]. unfold os_path_exists, read_text. rewrite Hfile.
  rewrite bool_decide_eq_true_2 by (eexists; reflexivity).
  unfold session_data. rewrite json_loads_dumps_record by (apply session_ok_entries, Hok).
  cbn [py_iter]. unfold session_ok in Hok. rewrite forallb_forall in Hok.
  assert (Hpath : forall t, In t s -> storable_path (path t) = true).
  { intros t Ht. specialize (Hok t Ht). apply andb_true_iff in Hok as [Hp _]. exact Hp. }
  set (dict_of := fun t : EditorTab =>
                    [(py "path", path t); (py "html", PStr (toHtml (text t)))]).
  replace (map session_entry s) with (map PDict (map dict_of s))
    by (rewrite map_map; reflexivity).
  rewrite for_each_restore_dicts.
  - cbn [fs tabs]. rewrite map_map.
    rewrite (map_ext_in _ (fun t => (restored t, tab_label (path t)))); [reflexivity |].
    intros t Ht. destruct (entry_self_contained t (Hpath t Ht)) as (_ & _ & Hr & Hg).
    unfold dict_of. rewrite Hr, Hg. reflexivity.
  - intros _. reflexivity.
  - apply forallb_forall. intros d Hd. apply in_map_iff in Hd as (t & <- & Ht).
    apply (entry_self_contained t (Hpath t Ht)).
Qed.

(** The Document that [new_tab] opens: empty, without a path. *)
Definition empty_document : EditorTab (E := E) := mkTab fresh_text PNone.

Lemma new_tab_eq (w : world) :
  new_tab w
  = (Ok tt, mkWorld (fs w)
              (mkTabs (pages (tabs w) ++ [(empty_document, py "Untitled")])
                      (Some (length (pages (tabs w) ++ [(empty_document, py "Untitled")]) - 1)%nat))).
Proof. reflexivity. Qed.

Lemma load_session_eq (w w2 : world) :
  load_session_read tempdir w = (Ok tt, w2) ->
  load_session tempdir w
  = if (count (tabs w2) =? 0)%nat then new_tab w2 else (Ok tt, w2).
Proof.
  intros Hread. unfold load_session, bind at 1. rewrite Hread.
  unfold bind, get_tabs. destruct (count (tabs w2) =? 0)%nat; reflexivity.
Qed.

(** Reading the record that a save has left. *)
Lemma load_read_after_save (w w1 : world) :
  session_ok (session w) = true ->
  auto_save_session tempdir w = (Ok tt, w1) ->
  exists w2,
    load_session_read tempdir (startup (fs w1)) = (Ok tt, w2)
    /\ session w2 = map restored (session w).
Proof.
  intros Hok Hsave. apply auto_save_session_ok in Hsave. subst w1. cbn [fs].
  set (fs1 := put_file _ _ _).
  assert (Hfile : files fs1 !! SESSION
                  = Some (Text (json_dumps (session_data (session w)))))
    by apply lookup_insert_eq.
  pose proof (load_session_read_record fs1 (session w) Hok Hfile) as Hread.
  eexists. split; [exact Hread |].
  unfold session at 1. cbn [tabs addTabs pages no_tabs app].
  rewrite map_map. reflexivity.
Qed.

(** C1. Saving a session and loading it again gives the same
    Documents, in the same order, with the same paths and with exactly
    the markup that was saved: the part of [load_session] that reads
    the record restores, for every tab that was open, a tab with the
    same path whose editor was given the string that [toHtml] had
    produced.  [load_session] as a whole returns these tabs too, and
    puts one empty Document in the place of an empty session. *)
Theorem save_load_round_trip (w w1 : world) :
  session_ok (session w) = true ->
  auto_save_session tempdir w = (Ok tt, w1) ->
  (exists w2,
      load_session_read tempdir (startup (fs w1)) = (Ok tt, w2)
      /\ session w2 = map restored (session w)
      /\ map path (session w2) = map path (session w)
      /\ length (session w2) = length (session w))
  /\ (exists w3,
         load_session tempdir (startup (fs w1)) = (Ok tt, w3)
         /\ session w3 = match session w with
                         | [] => [empty_document]
                         | s => map restored s
                         end).
Proof.
  intros Hok Hsave.
  destruct (load_read_after_save w w1 Hok Hsave) as (w2 & Hread & Hsess).
  split.
  - exists w2. rewrite Hsess. repeat split.
    + exact Hread.
    + rewrite map_map. reflexivity.
    + apply length_map.
  - rewrite (load_session_eq _ _ Hread).
    replace (count (tabs w2)) with (length (session w2))
      by (unfold session; apply length_map).
    rewrite Hsess, length_map.
    destruct (session w) as [| t s] eqn:Hs.
    + cbn [length Nat.eqb]. rewrite new_tab_eq. eexists. split; [reflexivity |].
      unfold session. cbn [tabs pages]. rewrite map_app.
      fold (session w2). rewrite Hsess. reflexivity.
    + cbn [length Nat.eqb]. exists w2. split; [reflexivity | exact Hsess].
Qed.

(** C2, as the code has it.  A record that [json.load] cannot parse
    is not taken for an empty session: the decoder's exception leaves
    [load_session], no tab is opened, and the start of the program ends
    there. *)
Theorem load_session_corrupt (w : world) (content : str) (e : exn) :
  files (fs w) !! SESSION = Some (Text content) ->
  json_loads content = Raise e ->
  load_session_read tempdir w = (Raise e, w)
  /\ load_session tempdir w = (Raise e, w).
Proof.
  intros Hfile Hbad.
  assert (Hread : load_session_read tempdir w = (Raise e, w)).
  { unfold load_session_read, bind, get_fs, lift, os_path_exists, read_text.
    rewrite Hfile, Hbad.
    rewrite bool_decide_eq_true_2 by (eexists; reflexivity). reflexivity. }
  split; [exact Hread |].
  unfold load_session, bind at 1. rewrite Hread. reflexivity.
Qed.

(** The write of [auto_save_session] fails on [fs0]. *)
Definition write_fails (fs0 : filesystem) (content : str) : Prop :=
  faults fs0 !! SESSION = Some Denied
  \/ exists room, faults fs0 !! SESSION = Some (NoSpace room)
                  /\ (room < length content)%nat.

(** C3, as the code has it.  A write that fails is not contained: the
    [OSError] leaves [auto_save_session] and reaches whoever called it.
    The open tabs are the same afterwards, as they are after every
    save. *)
Theorem auto_save_session_write_failure (w : world) :
  write_fails (fs w) (json_dumps (session_data (session w))) ->
  (exists fs', auto_save_session tempdir w = (Raise OSError, mkWorld fs' (tabs w)))
  /\ tabs (snd (auto_save_session tempdir w)) = tabs w.
Proof.
  intros Hfail. rewrite auto_save_session_eq. unfold write_text.
  destruct Hfail as [-> | (room & -> & Hroom)].
  - split; [eexists |]; reflexivity.
  - apply Nat.leb_gt in Hroom. rewrite Hroom. split; [eexists |]; reflexivity.
Qed.

(** No save changes the open tabs. *)
Lemma auto_save_session_tabs (w : world) :
  tabs (snd (auto_save_session tempdir w)) = tabs w.
Proof.
  rewrite auto_save_session_eq. destruct (write_text _ _ _). reflexivity.
Qed.

(** C4. Without a record, reading it opens no Document, and
    [load_session] then opens exactly one, empty and without a path. *)
Theorem load_session_no_record (fs0 : filesystem) :
  files fs0 !! SESSION = None ->
  load_session_read tempdir (startup fs0) = (Ok tt, startup fs0)
  /\ session (startup fs0) = []
  /\ load_session tempdir (startup fs0)
     = (Ok tt, mkWorld fs0 (mkTabs [(empty_document, py "Untitled")] (Some 0%nat)))
  /\ text empty_document = fresh_text
  /\ path empty_document = PNone.
Proof.
  intros Hnone.
  assert (Hread : load_session_read tempdir (startup fs0) = (Ok tt, startup fs0)).
  { unfold load_session_read, bind, get_fs, os_path_exists. cbn [startup fs].
    rewrite Hnone. rewrite bool_decide_eq_false_2 by (intros [x Hx]; discriminate).
    reflexivity. }
  repeat split; [exact Hread |].
  rewrite (load_session_eq _ _ Hread). reflexivity.
Qed.


Lemma put_file_twice p f (fs0 : filesystem) :
  put_file p f (put_file p f fs0) = put_file p f fs0.
Proof. unfold put_file. cbn [files faults]. rewrite insert_insert_eq. reflexivity. Qed.

(** A save that returned returns again, and changes nothing. *)
Lemma auto_save_session_again (w w1 : world) :
  auto_save_session tempdir w = (Ok tt, w1) ->
  auto_save_session tempdir w1 = (Ok tt, w1).
Proof.
  intros Hsave. pose proof (auto_save_session_ok _ _ Hsave) as ->.
  rewrite auto_save_session_eq in *. unfold session in *. cbn [fs tabs] in *.
  unfold write_text in *. cbn [put_file faults] in *.
  destruct (faults (fs w) !! SESSION) as [[| room] |].
  - discriminate.
  - destruct (_ <=? _)%nat; [| discriminate]. rewrite put_file_twice. reflexivity.
  - rewrite put_file_twice. reflexivity.
Qed.

(** C7. Saving the same session twice leaves a record from which
    [load_session] restores that session, after the first save and
    after the second: the second save returns and leaves the file
    system as the first left it. *)
Theorem save_twice_load (w w1 : world) :
  session_ok (session w) = true ->
  auto_save_session tempdir w = (Ok tt, w1) ->
  exists w2 r1 r2,
    auto_save_session tempdir w1 = (Ok tt, w2)
    /\ fs w2 = fs w1
    /\ load_session_read tempdir (startup (fs w1)) = (Ok tt, r1)
    /\ session r1 = map restored (session w)
    /\ load_session_read tempdir (startup (fs w2)) = (Ok tt, r2)
    /\ session r2 = map restored (session w).
Proof.
  intros Hok Hsave.
  destruct (load_read_after_save w w1 Hok Hsave) as (r1 & Hread & Hs).
  exists w1, r1, r1. repeat split; try assumption.
  apply auto_save_session_again with (w := w). exact Hsave.
Qed.

(** *** What a computation leaves alone *)

(** [keeps R m]: the world after [m] is related by [R] to the world
    before, whether [m] returns or raises. *)
Definition keeps {A} (R : relation (world (E := E))) (m : M A) : Prop :=
  forall w, R w (snd (m w)).

Section Keeps.

Variable R : relation (world (E := E)).
Hypothesis R_refl : forall w, R w w.
Hypothesis R_trans : forall w1 w2 w3, R w1 w2 -> R w2 w3 -> R w1 w3.

Lemma keeps_ret {A} (a : A) : keeps R (ret a).
Proof. intros w. apply R_refl. Qed.

Lemma keeps_raise {A} e : keeps R (raise (A := A) e).
Proof. intros w. apply R_refl. Qed.

Lemma keeps_lift {A} (r : result A) : keeps R (lift r).
Proof. intros w. apply R_refl. Qed.

Lemma keeps_get_fs : keeps R get_fs.
Proof. intros w. apply R_refl. Qed.

Lemma keeps_get_tabs : keeps R get_tabs.
Proof. intros w. apply R_refl. Qed.

Lemma keeps_bind {A B} (m : M A) (k : A -> M B) :
  keeps R m -> (forall a, keeps R (k a)) -> keeps R (bind m k).
Proof.
  intros Hm Hk w. unfold bind. specialize (Hm w).
  destruct (m w) as [[a | e] w']; cbn [snd] in *.
  - eapply R_trans; [exact Hm | apply Hk].
  - exact Hm.
Qed.

Lemma keeps_for_each {A} (xs : list A) (body : A -> M unit) :
  (forall x, keeps R (body x)) -> keeps R (for_each xs body).
Proof.
  intros Hbody. induction xs as [| x xs IH]; cbn [for_each].
  - apply keeps_ret.
  - apply keeps_bind; [apply Hbody | intros _; exact IH].
Qed.

End Keeps.

(** The file system is the same. *)
Definition same_fs (w w' : world (E := E)) : Prop := fs w' = fs w.

Lemma same_fs_refl w : same_fs w w.
Proof. reflexivity. Qed.

Lemma same_fs_trans w1 w2 w3 : same_fs w1 w2 -> same_fs w2 w3 -> same_fs w1 w3.
Proof. unfold same_fs. congruence. Qed.

Lemma same_fs_bind {A B} (m : M A) (k : A -> M B) :
  keeps same_fs m -> (forall a, keeps same_fs (k a)) -> keeps same_fs (bind m k).
Proof. apply keeps_bind. exact same_fs_trans. Qed.

Lemma same_fs_pure {A} (r : result A) : keeps same_fs (lift r).
Proof. apply keeps_lift. exact same_fs_refl. Qed.

Lemma same_fs_set_tabs tw : keeps same_fs (set_tabs tw).
Proof. intros w. reflexivity. Qed.

Lemma same_fs_EditorTab_init p h : keeps same_fs (EditorTab_init p h).
Proof.
  intros w. unfold EditorTab_init, same_fs.
  destruct h; try reflexivity.
  destruct (truthy p); [| reflexivity].
  destruct p; try reflexivity.
  unfold bind, get_fs, lift. destruct (read_text (fs w) s); reflexivity.
Qed.

Lemma same_fs_restore_item item : keeps same_fs (restore_item item).
Proof.
  intros w. unfold restore_item, same_fs, bind, lift, get_tabs, set_tabs.
  destruct (py_get item (py "path")) as [p |]; [| reflexivity].
  destruct (py_get item (py "html")) as [h |]; [| reflexivity].
  pose proof (same_fs_EditorTab_init p h w) as Hinit. unfold same_fs in Hinit.
  destruct (EditorTab_init p h w) as [[tab | e] w']; cbn [snd] in *; [| exact Hinit].
  destruct (filename tab); cbn [snd fs]; exact Hinit.
Qed.

Lemma same_fs_new_tab : keeps same_fs new_tab.
Proof. intros w. reflexivity. Qed.

Lemma same_fs_load_session_read : keeps same_fs (load_session_read tempdir).
Proof.
  unfold load_session_read. apply same_fs_bind; [intros w; reflexivity | intros f].
  destruct (os_path_exists f SESSION); [| intros w; reflexivity].
  repeat (apply same_fs_bind; [apply same_fs_pure | intros ?]).
  apply keeps_for_each; [exact same_fs_refl | exact same_fs_trans |].
  apply same_fs_restore_item.
Qed.

(** C8. Loading reads and never writes: after [load_session], and
    after the part of it that reads the record, the file system is
    what it was, whatever the record holds and whether the load
    returns or raises. *)
Theorem load_session_reads_only (w : world) :
  fs (snd (load_session tempdir w)) = fs w
  /\ fs (snd (load_session_read tempdir w)) = fs w.
Proof.
  split; [| apply same_fs_load_session_read].
  revert w. change (keeps same_fs (load_session tempdir)). unfold load_session.
  apply same_fs_bind; [apply same_fs_load_session_read | intros _].
  apply same_fs_bind; [intros w; reflexivity | intros tw].
  destruct (count tw =? 0)%nat; [apply same_fs_new_tab | intros w; reflexivity].
Qed.

(** *** The session is never empty *)

(** No tab is ever removed. *)
Definition grows (w w' : world (E := E)) : Prop :=
  (count (tabs w) <= count (tabs w'))%nat.

Lemma step_grows (w : world) (a : action) : grows w (step tempdir w a).
Proof.
  unfold grows, step.
  destruct a as [| | picked | picked | picked | picked | idx | f | i]; cbn [run].
  - rewrite new_tab_eq. unfold count. cbn [snd tabs pages].
    rewrite length_app. lia.
  - rewrite auto_save_session_tabs. lia.
  - unfold open_txt_py, current_tab, set_current, bind, lift, ret, raise,
      get_fs, get_tabs, set_tabs, count.
    repeat case_match; simplify_eq; cbn [snd tabs pages];
      rewrite ?length_insert; lia.
  - unfold save_txt, current_tab, set_current, write_file, bind, lift, ret, raise,
      get_fs, get_tabs, set_tabs, count.
    repeat case_match; simplify_eq; cbn [snd tabs pages];
      rewrite ?length_insert; lia.
  - unfold save_odt, current_tab, set_current, bind, lift, ret, raise,
      get_fs, get_tabs, set_tabs, count.
    repeat case_match; simplify_eq; cbn [snd tabs pages];
      rewrite ?length_insert; lia.
  - unfold export_pdf, current_tab, bind, lift, ret, raise,
      get_fs, get_tabs, set_tabs, count.
    repeat case_match; simplify_eq; cbn [snd tabs pages]; lia.
  - unfold change_theme, bind, get_tabs, set_tabs, count.
    cbn [snd tabs pages]. rewrite length_map. lia.
  - unfold edit_current, current_tab, bind, lift, ret, raise,
      get_fs, get_tabs, set_tabs, count.
    repeat case_match; simplify_eq; cbn [snd tabs pages];
      rewrite ?length_insert; lia.
  - unfold select_tab, bind, ret, get_tabs, set_tabs, count.
    repeat case_match; simplify_eq; cbn [snd tabs pages]; lia.
Qed.

Lemma steps_grow (actions : list action) (w : world) :
  grows w (fold_left (step tempdir) actions w).
Proof.
  revert w. induction actions as [| a actions IH]; intros w; cbn [fold_left].
  - unfold grows. lia.
  - specialize (IH (step tempdir w a)). pose proof (step_grows w a).
    unfold grows in *. lia.
Qed.

(** C5. Once [load_session] has returned at startup there is at least
    one open Document, and there still is one after any sequence of
    actions on the window, whether they return or raise. *)
Theorem session_never_empty (fs0 : filesystem) (w : world) (actions : list action) :
  load_session tempdir (startup fs0) = (Ok tt, w) ->
  (1 <= length (session w))%nat
  /\ (1 <= length (session (fold_left (step tempdir) actions w)))%nat.
Proof.
  intros Hload.
  assert (Hw : (1 <= count (tabs w))%nat).
  { unfold load_session, bind at 1 in Hload.
    destruct (load_session_read tempdir (startup fs0)) as [[[] | e] w2];
      [| discriminate].
    unfold bind, get_tabs in Hload.
    destruct (count (tabs w2) =? 0)%nat eqn:Hc.
    - rewrite new_tab_eq in Hload. injection Hload as <-.
      unfold count. cbn [tabs pages]. rewrite length_app. cbn [length]. lia.
    - injection Hload as <-. apply Nat.eqb_neq in Hc. lia. }
  pose proof (steps_grow actions w) as Hg. unfold grows in Hg.
  unfold session. rewrite !length_map. unfold count in *. lia.
Qed.

(** *** Records that were not written by a save *)

Lemma dict_get_missing k d : k ∉ map fst d -> dict_get k d = PNone.
Proof.
  induction d as [| [k' v] d IH]; intros Hk; [reflexivity |].
  cbn [dict_get]. cbn [map fst] in Hk. apply not_elem_of_cons in Hk as [Hne Hk].
  rewrite decide_False by assumption. apply IH, Hk.
Qed.

(** An object that names a file and has no [html] is restored from
    that file, and the load fails when the file cannot be read. *)
Lemma restore_item_reads_file d c p (w : world) :
  dict_get (py "html") d = PNone ->
  dict_get (py "path") d = PStr (c :: p) ->
  restore_item (PDict d) w
  = match read_text (fs w) (c :: p) with
    | Ok txt =>
        (Ok tt, mkWorld (fs w)
                  (addTab (mkTab (setPlainText txt fresh_text) (PStr (c :: p)))
                          (basename (c :: p)) (tabs w)))
    | Raise e => (Raise e, w)
    end.
Proof.
  intros Hh Hp. unfold restore_item, bind, lift. cbn [py_get]. rewrite Hh, Hp.
  cbn [EditorTab_init truthy]. unfold bind, get_fs, lift.
  destruct (read_text (fs w) (c :: p)); reflexivity.
Qed.

(** C9, as the code has it.  A record that parses as a sequence of
    objects is restored without a key error: [item.get] gives [None]
    for a missing key.  When every object is self-contained the load
    returns, with one tab for each object in order; an object with
    neither key becomes the empty Document without a path, and one
    with [html] but without [path] a Document without a path that is
    given that markup.  An object with a path and without [html] is
    read from the file at that path, and the load raises when the file
    cannot be read. *)
Theorem load_session_missing_keys (fs0 : filesystem) (content : str)
    (ds : list (list (str * pyval))) :
  files fs0 !! SESSION = Some (Text content) ->
  json_loads content = Ok (PList (map PDict ds)) ->
  forallb self_contained ds = true ->
  (exists w, load_session_read tempdir (startup fs0) = (Ok tt, w)
             /\ session w = map restore_of ds)
  /\ (forall d k, k ∉ map fst d -> py_get (PDict d) k = Ok PNone)
  /\ restore_of [] = empty_document
  /\ (forall h, restore_of [(py "html", PStr h)] = mkTab (setHtml h fresh_text) PNone)
  /\ (forall d c p (w : world),
        dict_get (py "html") d = PNone ->
        dict_get (py "path") d = PStr (c :: p) ->
        restore_item (PDict d) w
        = match read_text (fs w) (c :: p) with
          | Ok txt =>
              (Ok tt, mkWorld (fs w)
                        (addTab (mkTab (setPlainText txt fresh_text) (PStr (c :: p)))
                                (basename (c :: p)) (tabs w)))
          | Raise e => (Raise e, w)
          end).
Proof.
  intros Hfile Hparse Hok. repeat split; [| | apply restore_item_reads_file].
  - unfold load_session_read, bind, get_fs, lift, startup. cbn [fs].
    unfold os_path_exists, read_text. rewrite Hfile, Hparse.
    rewrite bool_decide_eq_true_2 by (eexists; reflexivity).
    cbn [py_iter]. rewrite for_each_restore_dicts; [| intros _; reflexivity | exact Hok].
    eexists. split; [reflexivity |].
    unfold session. cbn [tabs addTabs pages no_tabs app]. rewrite map_map. reflexivity.
  - intros d k Hk. cbn [py_get]. rewrite dict_get_missing by assumption. reflexivity.
Qed.

(** What reading a record that parses comes to. *)
Lemma load_session_read_parsed (w : world) content data items :
  files (fs w) !! SESSION = Some (Text content) ->
  json_loads content = Ok data ->
  py_iter data = Ok items ->
  load_session_read tempdir w = for_each items restore_item w.
Proof.
  intros Hfile Hparse Hiter.
  unfold load_session_read, bind, get_fs, lift, os_path_exists, read_text.
  rewrite Hfile, Hparse, Hiter.
  rewrite bool_decide_eq_true_2 by (eexists; reflexivity). reflexivity.
Qed.

(** *** Files that the record names are not read *)

(** The item is an object with an [html] that is not [None]. *)
Definition html_present (item : pyval) : bool :=
  match item with
  | PDict d =>
      match dict_get (py "html") d with
      | PNone => false
      | _ => true
      end
  | _ => false
  end.

(** Two runs that end alike: the same outcome and the same tabs. *)
Definition alike (o1 o2 : result unit * world (E := E)) : Prop :=
  fst o1 = fst o2 /\ tabs (snd o1) = tabs (snd o2).

Lemma restore_item_alike item (w1 w2 : world) :
  html_present item = true -> tabs w1 = tabs w2 ->
  alike (restore_item item w1) (restore_item item w2).
Proof.
  intros Hitem Htabs. destruct item as [| | | | | | d]; try discriminate.
  cbn [html_present] in Hitem.
  unfold alike, restore_item, bind, lift, get_tabs, set_tabs. cbn [py_get].
  destruct (dict_get (py "html") d) as [| | | | h | |]; try discriminate;
    cbn [EditorTab_init raise ret fst snd]; try (split; [reflexivity | exact Htabs]).
  destruct (filename _); cbn [fst snd tabs]; rewrite Htabs; split; reflexivity.
Qed.

Lemma for_each_restore_alike items (w1 w2 : world) :
  forallb html_present items = true -> tabs w1 = tabs w2 ->
  alike (for_each items restore_item w1) (for_each items restore_item w2).
Proof.
  revert w1 w2. induction items as [| item items IH]; intros w1 w2 Hok Htabs.
  - split; [reflexivity | exact Htabs].
  - cbn [forallb] in Hok. apply andb_true_iff in Hok as [Hitem Hok].
    cbn [for_each]. unfold bind.
    destruct (restore_item_alike item w1 w2 Hitem Htabs) as [Hr Ht].
    destruct (restore_item item w1) as [[[] | e1] w1'],
             (restore_item item w2) as [[[] | e2] w2'];
      cbn [fst snd] in *; try discriminate.
    + apply IH; assumption.
    + split; assumption.
Qed.

(** C10. When every item of the record has an [html], the load does
    not depend on any file but the record: on two file systems that
    hold the same record it ends with the same outcome and the same
    tabs, whatever the files at the stored paths contain or whether
    they exist.  The editor of a restored tab is given the stored
    markup and nothing else. *)
Theorem load_session_ignores_files (fs1 fs2 : filesystem) (content : str)
    (items : list pyval) :
  files fs1 !! SESSION = Some (Text content) ->
  files fs2 !! SESSION = Some (Text content) ->
  json_loads content = Ok (PList items) ->
  forallb html_present items = true ->
  fst (load_session tempdir (startup fs1)) = fst (load_session tempdir (startup fs2))
  /\ tabs (snd (load_session tempdir (startup fs1)))
     = tabs (snd (load_session tempdir (startup fs2)))
  /\ (forall p h (w : world),
        EditorTab_init p (PStr h) w = (Ok (mkTab (setHtml h fresh_text) p), w)).
Proof.
  intros Hf1 Hf2 Hparse Hok.
  assert (Hread : alike (load_session_read tempdir (startup fs1))
                        (load_session_read tempdir (startup fs2))).
  { rewrite (load_session_read_parsed (startup fs1) content (PList items) items),
            (load_session_read_parsed (startup fs2) content (PList items) items);
      try assumption; try reflexivity.
    apply for_each_restore_alike; [exact Hok | reflexivity]. }
  assert (Hload : alike (load_session tempdir (startup fs1))
                        (load_session tempdir (startup fs2))).
  { unfold load_session, bind at 1 3. destruct Hread as [Hr Ht].
    destruct (load_session_read tempdir (startup fs1)) as [[[] | e1] w1],
             (load_session_read tempdir (startup fs2)) as [[[] | e2] w2];
      cbn [fst snd] in *; try discriminate; [| split; assumption].
    unfold bind, get_tabs. rewrite Ht.
    destruct (count (tabs w2) =? 0)%nat; [| split; assumption].
    rewrite !new_tab_eq. cbn [fst snd tabs]. rewrite Ht. split; reflexivity. }
  destruct Hload as [Hr Ht]. repeat split; assumption.
Qed.

End Session.

(** * More of the program *)

(** ** Labels and the place of the record *)

Lemma existsb_slash_false p : existsb (N.eqb 47) p = false -> 47 ∉ p.
Proof.
  intros Hex Hin. apply list_elem_of_In in Hin.
  assert (existsb (N.eqb 47) p = true); [| congruence].
  apply existsb_exists. exists 47. split; [exact Hin | apply N.eqb_refl].
Qed.

Lemma existsb_slash_true p : existsb (N.eqb 47) p = true -> 47 ∈ p.
Proof.
  intros Hex. apply existsb_exists in Hex as (x & Hin & Hx).
  apply N.eqb_eq in Hx. subst x. apply list_elem_of_In. exact Hin.
Qed.

Lemma basename_no_slash p : 47 ∉ basename p.
Proof.
  induction p as [| c p IH]; cbn [basename]; [apply not_elem_of_nil |].
  destruct (existsb (N.eqb 47) p) eqn:Hex; [exact IH |].
  apply existsb_slash_false in Hex.
  destruct (N.eqb_spec c 47); [exact Hex |].
  apply not_elem_of_cons. split; [congruence | exact Hex].
Qed.

Lemma basename_plain p : 47 ∉ p -> basename p = p.
Proof.
  destruct p as [| c p]; [reflexivity |]. intros Hno. cbn [basename].
  apply not_elem_of_cons in Hno as [Hc Hp].
  destruct (existsb (N.eqb 47) p) eqn:Hex;
    [apply existsb_slash_true in Hex; contradiction |].
  destruct (N.eqb_spec c 47); [congruence | reflexivity].
Qed.

Lemma basename_after_slash d l : 47 ∉ l -> basename (d ++ 47 :: l) = l.
Proof.
  intros Hl. induction d as [| c d IH]; cbn [app basename].
  - destruct (existsb (N.eqb 47) l) eqn:Hex;
      [apply existsb_slash_true in Hex; contradiction | reflexivity].
  - destruct (existsb (N.eqb 47) (d ++ 47 :: l)) eqn:Hex; [exact IH |].
    apply existsb_slash_false in Hex. exfalso. apply Hex.
    apply elem_of_app. right. apply elem_of_cons. left. reflexivity.
Qed.

(** A path is its directory part, which is empty or ends in a slash,
    followed by its [basename]. *)
Lemma basename_split p :
  exists d, p = d ++ basename p /\ (d = [] \/ last d = Some 47).
Proof.
  induction p as [| c p (d & Hd & Hlast)]; [exists []; split; [reflexivity | left; reflexivity] |].
  cbn [basename]. destruct (existsb (N.eqb 47) p) eqn:Hex.
  - exists (c :: d). split; [cbn [app]; congruence |]. right.
    destruct Hlast as [-> | Hlast].
    + exfalso. cbn [app] in Hd. apply existsb_slash_true in Hex.
      rewrite Hd in Hex. exact (basename_no_slash p Hex).
    + destruct d as [| c' d]; [discriminate | exact Hlast].
  - destruct (N.eqb_spec c 47) as [-> | Hc].
    + exists [47]. split; [reflexivity | right; reflexivity].
    + exists []. split; [reflexivity | left; reflexivity].
Qed.

Section Window.

Context {E : Type} `{!QTextEditOps E}.
Variable tempdir : str.

Local Abbreviation SESSION := (SESSION_FILE tempdir).

(** X1. The label of a tab is ["Untitled"] while the tab has no path or an
    empty one; otherwise it is what follows the last slash of the
    path: it holds no slash, the path ends with it, and what stands
    before it is empty or ends in a slash (so a path that ends in a
    slash gives an empty label). *)
Theorem filename_label (t : EditorTab (E := E)) :
  (path t = PNone \/ path t = PStr [] -> filename t = Ok (py "Untitled"))
  /\ (forall c p, path t = PStr (c :: p) ->
        exists d l, filename t = Ok l /\ (47 ∉ l) /\ c :: p = d ++ l
                    /\ (d = [] \/ last d = Some 47)).
Proof.
  split.
  - unfold filename. intros [-> | ->]; reflexivity.
  - intros c p Hp. unfold filename. rewrite Hp. cbn [truthy].
    destruct (basename_split (c :: p)) as (d & Hd & Hlast).
    exists d, (basename (c :: p)). repeat split; try assumption.
    apply basename_no_slash.
Qed.

(** X2. The record is the file [hacker_editor_session.json] of the
    temporary directory, whatever that directory is called and whether
    or not its name ends in a slash. *)
Theorem SESSION_FILE_name :
  basename SESSION = py "hacker_editor_session.json"
  /\ exists sep, SESSION = tempdir ++ sep ++ py "hacker_editor_session.json"
                 /\ (sep = [] \/ sep = [47]).
Proof.
  assert (Hname : 47 ∉ py "hacker_editor_session.json").
  { apply existsb_slash_false. vm_compute. reflexivity. }
  unfold SESSION_FILE, os_path_join.
  change (match py "hacker_editor_session.json" with
          | 47 :: _ => py "hacker_editor_session.json"
          | _ => ?x
          end) with x.
  destruct (last tempdir) as [c |] eqn:Hlast.
  - destruct (N.eqb_spec c 47) as [-> | Hc].
    + split; [| exists []; split; [reflexivity | left; reflexivity]].
      apply last_Some in Hlast as [d ->]. rewrite <- app_assoc. cbn [app].
      apply basename_after_slash, Hname.
    + split; [apply basename_after_slash, Hname |].
      exists [47]. split; [reflexivity | right; reflexivity].
  - apply last_None in Hlast. subst tempdir.
    split; [apply basename_plain, Hname |].
    exists []. split; [reflexivity | left; reflexivity].
Qed.

(** ** What the window keeps *)

(** The label of a page is the [filename] of its tab. *)
Definition labelled (pg : EditorTab (E := E) * str) : Prop :=
  filename (fst pg) = Ok (snd pg).

(** The current index points at a page whenever there is one, and
    every page is labelled. *)
Definition window_inv (tw : QTabWidget (E := E)) : Prop :=
  match currentIndex tw with
  | None => pages tw = []
  | Some i => (i < count tw)%nat
  end
  /\ Forall labelled (pages tw).

Lemma filename_path (t t' : EditorTab (E := E)) :
  path t = path t' -> filename t = filename t'.
Proof. unfold filename. intros ->. reflexivity. Qed.

Lemma window_inv_no_tabs : window_inv no_tabs.
Proof. split; [reflexivity | constructor]. Qed.

Lemma window_inv_addTab tab label tw :
  window_inv tw -> filename tab = Ok label -> window_inv (addTab tab label tw).
Proof.
  intros [Hcur Hlab] Hf. unfold window_inv, addTab, count in *. cbn [pages currentIndex].
  split.
  - destruct (currentIndex tw); rewrite length_app; cbn [length]; lia.
  - apply Forall_app. split; [exact Hlab |]. constructor; [exact Hf | constructor].
Qed.

Lemma window_inv_new tab label tw :
  window_inv tw -> filename tab = Ok label ->
  window_inv (mkTabs (pages tw ++ [(tab, label)])
                     (Some (length (pages tw ++ [(tab, label)]) - 1)%nat)).
Proof.
  intros [Hcur Hlab] Hf. unfold window_inv, count. cbn [pages currentIndex]. split.
  - rewrite length_app. cbn [length]. lia.
  - apply Forall_app. split; [exact Hlab |]. constructor; [exact Hf | constructor].
Qed.

Lemma window_inv_insert i tab label tw :
  window_inv tw -> filename tab = Ok label ->
  window_inv (mkTabs (<[i := (tab, label)]> (pages tw)) (currentIndex tw)).
Proof.
  intros [Hcur Hlab] Hf. unfold window_inv, count in *. cbn [pages currentIndex]. split.
  - destruct (currentIndex tw).
    + rewrite length_insert. exact Hcur.
    + rewrite Hcur. reflexivity.
  - apply Forall_insert; assumption.
Qed.

Lemma window_inv_lookup tw i pg :
  window_inv tw -> pages tw !! i = Some pg -> filename (fst pg) = Ok (snd pg).
Proof.
  intros [_ Hlab] Hi. rewrite Forall_forall in Hlab. apply Hlab.
  eapply list_elem_of_lookup_2. exact Hi.
Qed.

Lemma restore_item_inv item (w : world) :
  window_inv (tabs w) -> window_inv (tabs (snd (restore_item item w))).
Proof.
  intros Hinv. unfold restore_item, bind, lift, get_tabs, set_tabs.
  destruct (py_get item (py "path")) as [p |]; [| exact Hinv].
  destruct (py_get item (py "html")) as [h |]; [| exact Hinv].
  pose proof (same_fs_EditorTab_init p h w) as Hfs.
  assert (Htabs : tabs (snd (EditorTab_init p h w)) = tabs w).
  { unfold EditorTab_init. destruct h; try reflexivity.
    destruct (truthy p); [| reflexivity]. destruct p; try reflexivity.
    unfold bind, get_fs, lift. destruct (read_text (fs w) s); reflexivity. }
  destruct (EditorTab_init p h w) as [[tab | e] w']; cbn [snd] in *;
    [| rewrite Htabs; exact Hinv].
  destruct (filename tab) as [label |] eqn:Hf; cbn [snd tabs];
    [| rewrite Htabs; exact Hinv].
  rewrite Htabs. apply window_inv_addTab; assumption.
Qed.

Lemma for_each_restore_inv items (w : world) :
  window_inv (tabs w) -> window_inv (tabs (snd (for_each items restore_item w))).
Proof.
  revert w. induction items as [| item items IH]; intros w Hinv; [exact Hinv |].
  cbn [for_each]. unfold bind. pose proof (restore_item_inv item w Hinv) as Hstep.
  destruct (restore_item item w) as [[[] | e] w']; cbn [snd] in *; [apply IH |]; exact Hstep.
Qed.

Lemma new_tab_inv (w : world) :
  window_inv (tabs w) -> window_inv (tabs (snd (new_tab w))).
Proof.
  intros Hinv. rewrite new_tab_eq. cbn [snd tabs].
  apply window_inv_new; [exact Hinv | reflexivity].
Qed.

(** A load that returns leaves a window with a current page. *)
Lemma load_session_inv (fs0 : filesystem) (w : world) :
  load_session tempdir (startup fs0) = (Ok tt, w) ->
  window_inv (tabs w) /\ (1 <= count (tabs w))%nat.
Proof.
  intros Hload.
  assert (Hread : window_inv (tabs (snd (load_session_read tempdir (startup fs0))))).
  { unfold load_session_read, bind, get_fs, lift. cbn [startup fs].
    destruct (os_path_exists fs0 SESSION); [| exact window_inv_no_tabs].
    destruct (read_text fs0 SESSION) as [content |]; [| exact window_inv_no_tabs].
    destruct (json_loads content) as [data |]; [| exact window_inv_no_tabs].
    destruct (py_iter data) as [items |]; [| exact window_inv_no_tabs].
    apply for_each_restore_inv. exact window_inv_no_tabs. }
  unfold load_session, bind at 1 in Hload.
  destruct (load_session_read tempdir (startup fs0)) as [[[] | e] w2];
    [| discriminate].
  cbn [snd] in Hread. unfold bind, get_tabs in Hload.
  destruct (count (tabs w2) =? 0)%nat eqn:Hc.
  - pose proof (new_tab_inv w2 Hread) as Hnew. rewrite Hload in Hnew. cbn [snd] in Hnew.
    split; [exact Hnew |]. rewrite new_tab_eq in Hload. injection Hload as <-.
    unfold count. cbn [tabs pages]. rewrite length_app. cbn [length]. lia.
  - injection Hload as <-. apply Nat.eqb_neq in Hc. split; [exact Hread | lia].
Qed.

Lemma step_inv (w : world) (a : action) :
  window_inv (tabs w) -> window_inv (tabs (step tempdir w a)).
Proof.
  intros Hinv. unfold step.
  destruct a as [| | picked | picked | picked | picked | idx | f | i]; cbn [run].
  - apply new_tab_inv, Hinv.
  - rewrite auto_save_session_tabs. exact Hinv.
  - unfold open_txt_py, current_tab, set_current, bind, lift, ret, raise,
      get_fs, get_tabs, set_tabs.
    repeat case_match; simplify_eq; cbn [snd tabs]; try exact Hinv.
    apply window_inv_insert; assumption.
  - unfold save_txt, current_tab, set_current, write_file, bind, lift, ret, raise,
      get_fs, get_tabs, set_tabs.
    repeat case_match; simplify_eq; cbn [snd tabs] in *; try exact Hinv.
    apply window_inv_insert; assumption.
  - unfold save_odt, current_tab, set_current, bind, lift, ret, raise,
      get_fs, get_tabs, set_tabs.
    repeat case_match; simplify_eq; cbn [snd tabs] in *; try exact Hinv;
      apply window_inv_insert; assumption.
  - unfold export_pdf, current_tab, bind, lift, ret, raise, get_fs, get_tabs, set_tabs.
    repeat case_match; simplify_eq; cbn [snd tabs] in *; exact Hinv.
  - unfold change_theme, bind, get_tabs, set_tabs. cbn [snd tabs].
    destruct Hinv as [Hcur Hlab]. unfold window_inv, count in *. cbn [pages currentIndex].
    split.
    + destruct (currentIndex (tabs w)); [rewrite length_map; exact Hcur |].
      rewrite Hcur. reflexivity.
    + apply Forall_map. eapply Forall_impl; [exact Hlab |]. intros pg Hpg. exact Hpg.
  - unfold edit_current, current_tab, bind, lift, ret, raise, get_fs, get_tabs, set_tabs.
    destruct (currentIndex (tabs w)) as [i |] eqn:Hi; [| exact Hinv].
    destruct (pages (tabs w) !! i) as [pg |] eqn:Hpg; cbn [snd tabs]; [| exact Hinv].
    rewrite Hpg. cbn [snd tabs].
    apply window_inv_insert; [exact Hinv |].
    apply (window_inv_lookup _ _ _ Hinv Hpg).
  - unfold select_tab, bind, ret, get_tabs, set_tabs.
    destruct (i <? count (tabs w))%nat eqn:Hi; cbn [snd tabs]; [| exact Hinv].
    destruct Hinv as [_ Hlab]. split; [apply Nat.ltb_lt, Hi | exact Hlab].
Qed.

Lemma steps_inv (actions : list action) (w : world) :
  window_inv (tabs w) -> window_inv (tabs (fold_left (step tempdir) actions w)).
Proof.
  revert w. induction actions as [| a actions IH]; intros w Hinv; [exact Hinv |].
  cbn [fold_left]. apply IH, step_inv, Hinv.
Qed.

(** X3. Once the window is up [self.current()] is always defined: there is
    a current tab after startup and after any sequence of actions, so
    no slot fails for want of one. *)
Theorem current_always_defined (fs0 : filesystem) (w : world) (actions : list action) :
  load_session tempdir (startup fs0) = (Ok tt, w) ->
  exists i t,
    current_tab (fold_left (step tempdir) actions w)
    = (Ok (i, t), fold_left (step tempdir) actions w).
Proof.
  intros Hload. destruct (load_session_inv fs0 w Hload) as [Hinv Hcount].
  pose proof (steps_inv actions w Hinv) as [Hcur _].
  pose proof (steps_grow tempdir actions w) as Hg. unfold grows in Hg.
  set (w' := fold_left (step tempdir) actions w) in *.
  unfold current_tab, bind, get_tabs.
  destruct (currentIndex (tabs w')) as [i |] eqn:Hi.
  - destruct (lookup_lt_is_Some_2 (pages (tabs w')) i Hcur) as [pg Hpg].
    rewrite Hpg. eexists _, _. reflexivity.
  - unfold count in *. rewrite Hcur in Hg. cbn [length] in Hg. lia.
Qed.

(** X4. The strip always shows [filename()] of each tab: after startup and
    after any sequence of actions the label of every page is what
    [filename] returns for its tab, which therefore never raises on an
    open tab. *)
Theorem labels_follow_paths (fs0 : filesystem) (w : world) (actions : list action) :
  load_session tempdir (startup fs0) = (Ok tt, w) ->
  Forall (fun pg => filename (fst pg) = Ok (snd pg))
         (pages (tabs (fold_left (step tempdir) actions w))).
Proof.
  intros Hload. destruct (load_session_inv fs0 w Hload) as [Hinv _].
  apply (steps_inv actions w Hinv).
Qed.

(** ** Records of other shapes *)

Lemma load_session_raises (w : world) e :
  load_session_read tempdir w = (Raise e, w) ->
  load_session tempdir w = (Raise e, w).
Proof. intros Hread. unfold load_session, bind at 1. rewrite Hread. reflexivity. Qed.

(** X5. A record that holds no item, be it [[]], [{}] or an empty string,
    counts as no session: the load returns with one empty Document. *)
Theorem load_session_empty_record (fs0 : filesystem) (content : str) (data : pyval) :
  files fs0 !! SESSION = Some (Text content) ->
  json_loads content = Ok data ->
  py_iter data = Ok [] ->
  load_session tempdir (startup fs0)
  = (Ok tt, mkWorld fs0 (mkTabs [(empty_document, py "Untitled")] (Some 0%nat))).
Proof.
  intros Hfile Hparse Hiter.
  assert (Hread : load_session_read tempdir (startup fs0) = (Ok tt, startup fs0))
    by (rewrite (load_session_read_parsed tempdir _ content data []); auto).
  rewrite (load_session_eq _ _ _ Hread). reflexivity.
Qed.

(** X6. A record whose top value cannot be iterated (a number, [true],
    [false], [null]) makes the load raise [TypeError], and one whose
    first item is not an object makes it raise [AttributeError]; in
    both cases no tab is opened and no default Document is made. *)
Theorem load_session_wrong_shape (w : world) (content : str) (data : pyval) :
  files (fs w) !! SESSION = Some (Text content) ->
  json_loads content = Ok data ->
  match data with
  | PNone | PBool _ | PInt _ | PFloat _ =>
      load_session tempdir w = (Raise TypeError, w)
  | PList (PDict _ :: _) | PList [] | PStr [] | PDict [] => True
  | PList (_ :: _) | PStr (_ :: _) | PDict (_ :: _) =>
      load_session tempdir w = (Raise AttributeError, w)
  end.
Proof.
  intros Hfile Hparse.
  assert (Hfail : forall e, py_iter data = Raise e ->
                    load_session tempdir w = (Raise e, w)).
  { intros e He. apply load_session_raises.
    unfold load_session_read, bind, get_fs, lift, os_path_exists, read_text.
    rewrite Hfile, Hparse, He.
    rewrite bool_decide_eq_true_2 by (eexists; reflexivity). reflexivity. }
  assert (Hitem : forall item items, py_iter data = Ok (item :: items) ->
                    py_get item (py "path") = Raise AttributeError ->
                    load_session tempdir w = (Raise AttributeError, w)).
  { intros item items Hi Hg. apply load_session_raises.
    rewrite (load_session_read_parsed tempdir w content data (item :: items)) by assumption.
    cbn [for_each]. unfold bind, restore_item, bind, lift. rewrite Hg. reflexivity. }
  destruct data as [| b | z | lit | [| c s] | [| item l] | [| [k v] d]];
    try (apply Hfail; reflexivity); try exact I;
    try (eapply Hitem; reflexivity).
  destruct item; try exact I; eapply Hitem; reflexivity.
Qed.

(** X7. A record that is there but cannot be read as text (a directory, a
    file without permission, bytes that are not UTF-8) makes the load
    raise the error of [open] or [read]. *)
Theorem load_session_unreadable (w : world) (e : exn) :
  files (fs w) !! SESSION = Some (Unreadable e) ->
  load_session tempdir w = (Raise e, w).
Proof.
  intros Hfile. apply load_session_raises.
  unfold load_session_read, bind, get_fs, lift, os_path_exists, read_text.
  rewrite Hfile. rewrite bool_decide_eq_true_2 by (eexists; reflexivity). reflexivity.
Qed.

(** The tabs that stand for self-contained objects, with their labels. *)
Definition restored_pages (ds : list (list (str * pyval))) : list (EditorTab (E := E) * str) :=
  map (fun d => (restore_of d, tab_label (dict_get (py "path") d))) ds.

Lemma for_each_app {A} (xs ys : list A) (body : A -> M unit) (w : world (E := E)) :
  for_each (xs ++ ys) body w
  = match for_each xs body w with
    | (Ok _, w') => for_each ys body w'
    | (Raise e, w') => (Raise e, w')
    end.
Proof.
  revert w. induction xs as [| x xs IH]; intros w; cbn [app for_each].
  - reflexivity.
  - unfold bind. destruct (body x w) as [[[] | e] w']; [apply IH | reflexivity].
Qed.

(** X8. The load stops at the first item that cannot be restored: the tabs
    of the items before it are open, the items after it are not looked
    at, the exception leaves [load_session], and no default Document
    is made. *)
Theorem load_session_stops_at_failure (fs0 : filesystem) (content : str)
    (good : list (list (str * pyval))) (bad : pyval) (rest : list pyval) (e : exn) :
  files fs0 !! SESSION = Some (Text content) ->
  json_loads content = Ok (PList (map PDict good ++ bad :: rest)) ->
  forallb self_contained good = true ->
  restore_item bad (mkWorld fs0 (addTabs (restored_pages good) no_tabs))
  = (Raise e, mkWorld fs0 (addTabs (restored_pages good) no_tabs)) ->
  load_session tempdir (startup fs0)
  = (Raise e, mkWorld fs0 (addTabs (restored_pages good) no_tabs))
  /\ map fst (restored_pages good) = map restore_of good.
Proof.
  intros Hfile Hparse Hgood Hbad. split; [| unfold restored_pages; apply map_map].
  unfold load_session, bind at 1.
  rewrite (load_session_read_parsed tempdir (startup fs0) content _
             (map PDict good ++ bad :: rest) Hfile Hparse eq_refl).
  rewrite for_each_app, for_each_restore_dicts;
    [| intros _; reflexivity | exact Hgood].
  cbn [for_each fs tabs startup]. unfold bind at 1. fold (restored_pages good).
  rewrite Hbad. reflexivity.
Qed.

(** X9. An object whose [html] is a string and whose [path] is a value
    that is true but not a string (a number, [true], a list, an
    object) cannot be restored: [filename] raises [TypeError] and no
    tab is added.  With a [path] that is false but not [None] (zero,
    [false], an empty list or object) the tab is added, keeps that
    value as its path and is labelled ["Untitled"]. *)
Theorem restore_item_odd_path (d : list (str * pyval)) (h : str) (w : world) :
  dict_get (py "html") d = PStr h ->
  (forall s, dict_get (py "path") d <> PStr s) ->
  restore_item (PDict d) w
  = if truthy (dict_get (py "path") d)
    then (Raise TypeError, w)
    else (Ok tt, mkWorld (fs w)
                   (addTab (mkTab (setHtml h fresh_text) (dict_get (py "path") d))
                           (py "Untitled") (tabs w))).
Proof.
  intros Hh Hp. unfold restore_item, bind, lift. cbn [py_get]. rewrite Hh.
  cbn [EditorTab_init ret]. unfold filename. cbn [path].
  destruct (truthy (dict_get (py "path") d)) eqn:Ht; [| reflexivity].
  destruct (dict_get (py "path") d); try reflexivity. exfalso. eapply Hp. reflexivity.
Qed.
(** ** What a save leaves alone, and what it writes *)

(** X10. Whatever its outcome, a save leaves the open tabs, every file but
    the record and the write faults as they are; a save that is denied
    leaves the record too, so the last session that was saved can still
    be loaded. *)
Theorem auto_save_session_frame (w : world) :
  let w' := snd (auto_save_session tempdir w) in
  tabs w' = tabs w
  /\ faults (fs w') = faults (fs w)
  /\ (forall p, p <> SESSION -> files (fs w') !! p = files (fs w) !! p)
  /\ (faults (fs w) !! SESSION = Some Denied -> fs w' = fs w).
Proof.
  cbn zeta. rewrite auto_save_session_eq. unfold write_text.
  destruct (faults (fs w) !! SESSION) as [[| room] |];
    [| destruct (_ <=? _)%nat |]; cbn [snd fs tabs put_file files faults];
    repeat split; try discriminate;
    intros p Hp; apply lookup_insert_ne; congruence.
Qed.

(** Printable ASCII: from the space to the tilde. *)
Definition printable (c : N) : Prop := 32 <= c <= 126.

Lemma printable_literal (s : string) :
  forallb (fun c => (32 <=? c) && (c <=? 126)) (py s) = true -> Forall printable (py s).
Proof.
  intros Hs. apply Forall_forall. intros c Hc. rewrite forallb_forall in Hs.
  apply list_elem_of_In in Hc. specialize (Hs c Hc).
  apply andb_true_iff in Hs as [H1 H2]. apply N.leb_le in H1, H2. split; assumption.
Qed.

Lemma hex_digit_printable n : printable (hex_digit (n mod 16)).
Proof.
  pose proof (N.mod_lt n 16 ltac:(lia)) as Hd. unfold hex_digit, printable.
  set (d := n mod 16) in *. clearbody d.
  destruct (N.ltb_spec d 10); lia.
Qed.

Lemma u_escape_printable n : Forall printable (u_escape n).
Proof.
  unfold u_escape.
  repeat (constructor; [first [apply hex_digit_printable | unfold printable; lia] |]).
  constructor.
Qed.

Lemma escape_char_printable c : Forall printable (escape_char c).
Proof.
  assert (Hshort : forall x, printable x -> Forall printable [92; x])
    by (intros x Hx; constructor; [unfold printable; lia |];
        constructor; [exact Hx | constructor]).
  unfold escape_char.
  repeat match goal with
         | |- context [if ?x =? ?y then _ else _] =>
             destruct (x =? y); [apply Hshort; unfold printable; lia |]
         end.
  destruct (N.leb_spec 32 c), (N.leb_spec c 126); cbn [andb];
    try (constructor; [unfold printable; lia | constructor]);
    (destruct (c <? 65536);
     [apply u_escape_printable | apply Forall_app; split; apply u_escape_printable]).
Qed.

Lemma encode_printable s : Forall printable (encode_basestring_ascii s).
Proof.
  unfold encode_basestring_ascii. constructor; [unfold printable; lia |].
  apply Forall_app. split; [| repeat constructor; unfold printable; lia].
  induction s as [| c s IH]; cbn [flat_map]; [constructor |].
  apply Forall_app. split; [apply escape_char_printable | exact IH].
Qed.

Lemma join_items_printable items :
  Forall (Forall printable) items -> Forall printable (join_items items).
Proof.
  induction 1 as [| x items Hx Hitems IH]; [constructor |].
  destruct items as [| y items]; [exact Hx |].
  change (join_items (x :: y :: items)) with (x ++ py ", " ++ join_items (y :: items)).
  repeat (apply Forall_app; split); try assumption.
  apply printable_literal. reflexivity.
Qed.

(** The path of the tab is [None] or a [str]. *)
Definition plain_path (t : EditorTab (E := E)) : Prop :=
  path t = PNone \/ exists s, path t = PStr s.

(** X11. The record that a save writes is one line of printable ASCII,
    whatever characters the paths and the markup hold: every other
    character is written as an escape.  So encoding the record as
    UTF-8 cannot fail. *)
Theorem session_record_printable (s : list (EditorTab (E := E))) :
  Forall plain_path s ->
  Forall printable (json_dumps (session_data s)).
Proof.
  intros Hs. unfold session_data. cbn [json_dumps].
  constructor; [unfold printable; lia |].
  apply Forall_app. split; [| repeat constructor; unfold printable; lia].
  apply join_items_printable. rewrite map_map.
  apply Forall_forall. intros x Hx.
  apply list_elem_of_In, in_map_iff in Hx as (t & <- & Ht).
  rewrite Forall_forall in Hs. apply list_elem_of_In, Hs in Ht.
  unfold session_entry. cbn [json_dumps map fst snd].
  constructor; [unfold printable; lia |].
  apply Forall_app. split; [| repeat constructor; unfold printable; lia].
  apply join_items_printable.
  assert (Hpath : Forall printable (json_dumps (path t))).
  { destruct Ht as [-> | [p ->]]; cbn [json_dumps];
      [apply printable_literal; reflexivity | apply encode_printable]. }
  constructor; [| constructor; [| constructor]];
    repeat (apply Forall_app; split);
    try apply encode_printable; try (apply printable_literal; reflexivity);
    exact Hpath.
Qed.
(** ** The slots that open and save files *)

(** X12. No action touches a tab that is not the current one: its path and
    its label stay, and so does its editor, but for [change_theme],
    which restyles every editor. *)
Theorem step_other_tabs (w : world) (a : action) (k : nat) (pg : EditorTab * str) :
  pages (tabs w) !! k = Some pg ->
  currentIndex (tabs w) <> Some k ->
  exists pg',
    pages (tabs (step tempdir w a)) !! k = Some pg'
    /\ path (fst pg') = path (fst pg)
    /\ snd pg' = snd pg
    /\ ((forall idx, a <> ChangeTheme idx) -> pg' = pg).
Proof.
  intros Hk Hcur. unfold step.
  assert (Hsame : forall tw, tw = tabs w ->
            exists pg', pages tw !! k = Some pg' /\ path (fst pg') = path (fst pg)
                        /\ snd pg' = snd pg
                        /\ ((forall idx, a <> ChangeTheme idx) -> pg' = pg)).
  { intros tw ->. exists pg. repeat split; assumption. }
  assert (Hins : forall tw i x, pages tw = <[i := x]> (pages (tabs w)) -> i <> k ->
            exists pg', pages tw !! k = Some pg'
                        /\ path (fst pg') = path (fst pg) /\ snd pg' = snd pg
                        /\ ((forall idx, a <> ChangeTheme idx) -> pg' = pg)).
  { intros tw i x Htw Hik. exists pg. rewrite Htw.
    rewrite list_lookup_insert_ne by exact Hik. repeat split; assumption. }
  destruct a as [| | picked | picked | picked | picked | idx | f | i]; cbn [run].
  - rewrite new_tab_eq. cbn [snd tabs pages]. exists pg.
    rewrite lookup_app_l by (eapply lookup_lt_Some; exact Hk). repeat split; assumption.
  - apply Hsame, auto_save_session_tabs.
  - unfold open_txt_py, current_tab, set_current, bind, lift, ret, raise,
      get_fs, get_tabs, set_tabs.
    repeat case_match; simplify_eq; cbn [snd tabs] in *;
      first [apply Hsame; reflexivity | eapply Hins; [reflexivity | congruence]].
  - unfold save_txt, current_tab, set_current, write_file, bind, lift, ret, raise,
      get_fs, get_tabs, set_tabs.
    repeat case_match; simplify_eq; cbn [snd tabs] in *;
      first [apply Hsame; reflexivity | eapply Hins; [reflexivity | congruence]].
  - unfold save_odt, current_tab, set_current, bind, lift, ret, raise,
      get_fs, get_tabs, set_tabs.
    repeat case_match; simplify_eq; cbn [snd tabs] in *;
      first [apply Hsame; reflexivity | eapply Hins; [reflexivity | congruence]].
  - unfold export_pdf, current_tab, bind, lift, ret, raise, get_fs, get_tabs, set_tabs.
    repeat case_match; simplify_eq; cbn [snd tabs] in *; apply Hsame; reflexivity.
  - unfold change_theme, bind, get_tabs, set_tabs. cbn [snd tabs pages].
    rewrite list_lookup_fmap, Hk. cbn. eexists. split; [reflexivity |].
    repeat split. intros Hno. exfalso. eapply Hno. reflexivity.
  - unfold edit_current, current_tab, bind, lift, ret, raise, get_fs, get_tabs, set_tabs.
    repeat case_match; simplify_eq; cbn [snd tabs] in *;
      first [apply Hsame; reflexivity | eapply Hins; [reflexivity | congruence]].
  - unfold select_tab, bind, ret, get_tabs, set_tabs.
    destruct (i <? count (tabs w))%nat; cbn [snd tabs pages];
      exists pg; repeat split; assumption.
Qed.

(** X13. Opening a file replaces the content of the current tab in place:
    the file system is not changed, the tab gets the text of the file
    as plain text, the picked path and its base name as label.  When
    the file cannot be read the slot raises before it has changed
    anything, and a cancelled dialog does nothing. *)
Theorem open_txt_py_effect (picked : str) (w : world) (i : nat) (t : EditorTab) (l : str) :
  currentIndex (tabs w) = Some i ->
  pages (tabs w) !! i = Some (t, l) ->
  open_txt_py picked w
  = match picked with
    | [] => (Ok tt, w)
    | _ =>
        match read_text (fs w) picked with
        | Raise e => (Raise e, w)
        | Ok txt =>
            (Ok tt, mkWorld (fs w)
                      (mkTabs (<[i := (mkTab (setPlainText txt (text t)) (PStr picked),
                                       basename picked)]> (pages (tabs w)))
                              (Some i)))
        end
    end.
Proof.
  intros Hi Hpg. destruct picked as [| c p]; [reflexivity |].
  unfold open_txt_py, current_tab, set_current, bind, lift, get_fs, get_tabs, set_tabs.
  cbn [is_nil]. destruct (read_text (fs w) (c :: p)); [| reflexivity].
  cbv beta. rewrite Hi, Hpg. cbn [ret fst]. unfold filename. cbn [path truthy].
  rewrite Hi. reflexivity.
Qed.


(** ** From one run to the next *)

(** The first tab is the current one, when there is a tab. *)
Definition first_selected (tw : QTabWidget (E := E)) : Prop :=
  currentIndex tw = match pages tw with
                    | [] => None
                    | _ :: _ => Some 0%nat
                    end.

Lemma first_selected_addTab tab label tw :
  first_selected tw -> first_selected (addTab tab label tw).
Proof.
  unfold first_selected, addTab. cbn [pages currentIndex]. intros ->.
  destruct (pages tw); reflexivity.
Qed.

Lemma restore_item_tabs item (w : world) :
  tabs (snd (restore_item item w)) = tabs w
  \/ exists tab label, tabs (snd (restore_item item w)) = addTab tab label (tabs w).
Proof.
  unfold restore_item, bind, lift, get_tabs, set_tabs.
  destruct (py_get item (py "path")) as [p |]; [| left; reflexivity].
  destruct (py_get item (py "html")) as [h |]; [| left; reflexivity].
  assert (Htabs : tabs (snd (EditorTab_init p h w)) = tabs w).
  { unfold EditorTab_init. destruct h; try reflexivity.
    destruct (truthy p); [| reflexivity]. destruct p; try reflexivity.
    unfold bind, get_fs, lift. destruct (read_text (fs w) s); reflexivity. }
  destruct (EditorTab_init p h w) as [[tab | e] w']; cbn [snd] in *;
    [| left; exact Htabs].
  destruct (filename tab) as [label |]; cbn [snd tabs]; [| left; exact Htabs].
  right. exists tab, label. rewrite Htabs. reflexivity.
Qed.

Lemma for_each_restore_first items (w : world) :
  first_selected (tabs w) ->
  first_selected (tabs (snd (for_each items restore_item w))).
Proof.
  revert w. induction items as [| item items IH]; intros w Hinv; [exact Hinv |].
  cbn [for_each]. unfold bind.
  assert (Hstep : first_selected (tabs (snd (restore_item item w)))).
  { destruct (restore_item_tabs item w) as [-> | (tab & label & ->)];
      [exact Hinv | apply first_selected_addTab, Hinv]. }
  destruct (restore_item item w) as [[[] | e] w']; cbn [snd] in *; [apply IH |]; exact Hstep.
Qed.

(** X16. The tab that was selected is not part of the record: a start
    always comes up with the first tab selected, whatever the record
    holds. *)
Theorem startup_selects_first_tab (fs0 : filesystem) (w : world) :
  load_session tempdir (startup fs0) = (Ok tt, w) ->
  currentIndex (tabs w) = Some 0%nat.
Proof.
  intros Hload.
  assert (Hread : first_selected (tabs (snd (load_session_read tempdir (startup fs0))))).
  { unfold load_session_read, bind, get_fs, lift. cbn [startup fs].
    destruct (os_path_exists fs0 SESSION); [| reflexivity].
    destruct (read_text fs0 SESSION) as [content |]; [| reflexivity].
    destruct (json_loads content) as [data |]; [| reflexivity].
    destruct (py_iter data) as [items |]; [| reflexivity].
    apply for_each_restore_first. reflexivity. }
  unfold load_session, bind at 1 in Hload.
  destruct (load_session_read tempdir (startup fs0)) as [[[] | e] w2];
    [| discriminate].
  cbn [snd] in Hread. unfold bind, get_tabs in Hload. unfold count in Hload.
  unfold first_selected in Hread.
  destruct (pages (tabs w2)) as [| pg pgs] eqn:Hpg; cbn [length Nat.eqb] in Hload.
  - rewrite new_tab_eq in Hload. injection Hload as <-. cbn [tabs currentIndex].
    rewrite Hpg. reflexivity.
  - injection Hload as <-. exact Hread.
Qed.

Lemma filename_tab_label (t : EditorTab (E := E)) :
  storable_path (path t) = true -> filename t = Ok (tab_label (path t)).
Proof.
  unfold filename, tab_label. destruct (path t) as [| | | | [| c s] | |]; try discriminate;
    reflexivity.
Qed.

(** X17. After a restart the tab strip reads as before: when the session of
    a running window is saved and the program is started again, the
    tabs come back in the same order with the same labels and paths,
    and the first one is selected. *)
Theorem restart_keeps_labels (fs0 : filesystem) (w0 w1 : world) (actions : list action) :
  load_session tempdir (startup fs0) = (Ok tt, w0) ->
  let w := fold_left (step tempdir) actions w0 in
  session_ok (session w) = true ->
  auto_save_session tempdir w = (Ok tt, w1) ->
  exists w2,
    load_session tempdir (startup (fs w1)) = (Ok tt, w2)
    /\ map snd (pages (tabs w2)) = map snd (pages (tabs w))
    /\ map path (session w2) = map path (session w)
    /\ currentIndex (tabs w2) = Some 0%nat.
Proof.
  intros Hload w Hok Hsave.
  destruct (load_session_inv fs0 w0 Hload) as [Hinv Hcount].
  pose proof (steps_inv actions w0 Hinv) as [_ Hlab]. fold w in Hlab.
  pose proof (steps_grow tempdir actions w0) as Hg. unfold grows in Hg. fold w in Hg.
  apply auto_save_session_ok in Hsave. subst w1. cbn [fs].
  set (fs1 := put_file _ _ _).
  assert (Hfile : files fs1 !! SESSION
                  = Some (Text (json_dumps (session_data (session w)))))
    by apply lookup_insert_eq.
  pose proof (load_session_read_record tempdir fs1 (session w) Hok Hfile) as Hread.
  set (w2 := mkWorld fs1 _) in Hread.
  assert (Hpages : pages (tabs w2)
                   = map (fun t => (restored t, tab_label (path t))) (session w))
    by reflexivity.
  assert (Hne : (count (tabs w2) =? 0)%nat = false).
  { apply Nat.eqb_neq. unfold count. rewrite Hpages, length_map. unfold session.
    rewrite length_map. unfold count in *. lia. }
  exists w2. rewrite (load_session_eq _ _ _ Hread), Hne.
  split; [reflexivity |]. split; [| split].
  - rewrite Hpages. unfold session. rewrite !map_map. cbn [snd].
    apply map_ext_in. intros pg Hpg.
    rewrite Forall_forall in Hlab. apply list_elem_of_In in Hpg.
    specialize (Hlab pg Hpg). unfold labelled in Hlab.
    unfold session_ok in Hok. rewrite forallb_forall in Hok.
    assert (Hin : In (fst pg) (session w)).
    { unfold session. apply in_map. apply list_elem_of_In. exact Hpg. }
    specialize (Hok _ Hin). apply andb_true_iff in Hok as [Hp _].
    rewrite (filename_tab_label _ Hp) in Hlab. congruence.
  - unfold session at 1. rewrite Hpages, !map_map. cbn [fst restored path].
    reflexivity.
  - unfold w2. cbn [tabs addTabs currentIndex no_tabs pages app].
    destruct (map _ (session w)) eqn:Hm; [| reflexivity].
    exfalso. apply map_eq_nil in Hm. unfold session in Hm. apply map_eq_nil in Hm.
    unfold count in *. rewrite Hm in Hg. cbn [length] in Hg. lia.
Qed.


(** ** A start that fails *)

(** [HackerEditor.__init__], as far as the session goes:
    [self.tabs = QTabWidget()], then [self.load_session()]. *)
Definition HackerEditor_init (fs0 : filesystem) : result unit * world (E := E) :=
  load_session tempdir (startup fs0).

(** What the process leaves behind when it ends in the state [w].
    [atexit.register(self.auto_save_session)] stands before
    [self.load_session()] in [__init__], so the hook also runs when
    the load has raised; what the hook raises is printed and dropped. *)
Definition at_exit (w : world (E := E)) : filesystem :=
  fs (snd (auto_save_session tempdir w)).

Lemma same_fs_load_session : keeps same_fs (load_session tempdir).
Proof.
  unfold load_session.
  apply same_fs_bind; [apply same_fs_load_session_read | intros _].
  apply same_fs_bind; [intros w; reflexivity | intros tw].
  destruct (count tw =? 0)%nat; [apply same_fs_new_tab | intros w; reflexivity].
Qed.

(** X19. A start that fails repairs the record: the exit hook replaces the
    record by the tabs that were restored before the failure (none,
    when the record could not be read or parsed), and the next start
    comes up with them, or with one empty Document. *)
Theorem failed_start_repairs_record (fs0 : filesystem) (e : exn) (w : world) :
  HackerEditor_init fs0 = (Raise e, w) ->
  faults fs0 !! SESSION = None ->
  session_ok (session w) = true ->
  files (at_exit w) !! SESSION = Some (Text (json_dumps (session_data (session w))))
  /\ exists w',
       HackerEditor_init (at_exit w) = (Ok tt, w')
       /\ session w' = match session w with
                       | [] => [empty_document]
                       | s => map restored s
                       end.
Proof.
  intros Hinit Hfault Hok.
  assert (Hfs : fs w = fs0).
  { pose proof (same_fs_load_session (startup fs0)) as H. unfold same_fs in H.
    unfold HackerEditor_init in Hinit. rewrite Hinit in H. exact H. }
  assert (Hsave : auto_save_session tempdir w
                  = (Ok tt, mkWorld (put_file SESSION
                                       (Text (json_dumps (session_data (session w)))) (fs w))
                              (tabs w))).
  { rewrite auto_save_session_eq. unfold write_text. rewrite Hfs, Hfault. reflexivity. }
  unfold at_exit. rewrite Hsave. cbn [snd fs].
  split; [apply lookup_insert_eq |].
  destruct (load_read_after_save tempdir w _ Hok Hsave) as (w2 & Hread & Hsess).
  cbn [fs] in Hread. unfold HackerEditor_init.
  rewrite (load_session_eq _ _ _ Hread).
  replace (count (tabs w2)) with (length (session w2))
    by (unfold session; apply length_map).
  rewrite Hsess, length_map.
  destruct (session w) as [| t s] eqn:Hs.
  - cbn [length Nat.eqb]. rewrite new_tab_eq. eexists. split; [reflexivity |].
    unfold session. cbn [tabs pages]. rewrite map_app.
    fold (session w2). rewrite Hsess. reflexivity.
  - cbn [length Nat.eqb]. exists w2. split; [reflexivity | exact Hsess].
Qed.
End Window.

(** * Concrete runs *)

(** An editor that keeps the markup it is given, to run the program on
    concrete inputs. *)
#[local] Instance markup_editor : QTextEditOps str := {|
  QTextEdit_new := [];
  setStyleSheet := fun _ e => e;
  PythonHighlighter := fun e => e;
  setHtml := fun h _ => h;
  setPlainText := fun t _ => t;
  toHtml := fun e => e;
  toPlainText := fun e => e
|}.

Definition tmp : str := py "/tmp".

Definition empty_fs : filesystem := FS ∅ ∅.

(** The session of the specification's scenario: [/tmp/x.py] in bold,
    and an untitled document. *)
Definition two_tabs : QTabWidget (E := str) :=
  mkTabs [(mkTab (py "<b>hello</b>") (PStr (py "/tmp/x.py")), py "x.py");
          (mkTab (py "plain") PNone, py "Untitled")]
         (Some 0%nat).

Definition two_tabs_world : world := mkWorld empty_fs two_tabs.

Definition two_tabs_saved : world := snd (auto_save_session tmp two_tabs_world).

(** A record that was cut short. *)
Definition truncated_fs : filesystem :=
  FS {[ SESSION_FILE tmp := Text (py "[{") ]} ∅.

(** A record that may not be written. *)
Definition denied_fs : filesystem :=
  FS ∅ {[ SESSION_FILE tmp := Denied ]}.

(** A record with one object, which names a file that does not exist
    and has no [html]. *)
Definition dangling_record : str :=
  json_dumps (PList [PDict [(py "path", PStr (py "/no/such/file"))]]).

Definition dangling_fs : filesystem :=
  FS {[ SESSION_FILE tmp := Text dangling_record ]} ∅.

(** A record with an object without keys and one with [html] only. *)
Definition sparse_items : list (list (str * pyval)) :=
  [[]; [(py "html", PStr (py "<i>x</i>"))]].

Definition sparse_record : str := json_dumps (PList (map PDict sparse_items)).

Definition sparse_fs : filesystem :=
  FS {[ SESSION_FILE tmp := Text sparse_record ]} ∅.

(** The saved scenario, on a file system where [/tmp/x.py] exists. *)
Definition other_fs : filesystem :=
  put_file (py "/tmp/x.py") (Text (py "print(1)")) (fs two_tabs_saved).

Lemma save_load_round_trip_witness :
  session_ok (session two_tabs_world) = true
  /\ auto_save_session tmp two_tabs_world = (Ok tt, two_tabs_saved)
  /\ (exists w3,
        load_session tmp (startup (E := str) (fs two_tabs_saved)) = (Ok tt, w3)
        /\ session w3 = map restored (session two_tabs_world)).
Proof.
  assert (H1 : session_ok (session two_tabs_world) = true) by (vm_compute; reflexivity).
  assert (H2 : auto_save_session tmp two_tabs_world = (Ok tt, two_tabs_saved))
    by (vm_compute; reflexivity).
  split; [exact H1 |]. split; [exact H2 |].
  exact (proj2 (save_load_round_trip tmp two_tabs_world two_tabs_saved H1 H2)).
Defined.

Lemma load_session_corrupt_witness :
  files (fs (startup (E := str) truncated_fs)) !! SESSION_FILE tmp = Some (Text (py "[{"))
  /\ json_loads (py "[{") = Raise JSONDecodeError
  /\ load_session tmp (startup (E := str) truncated_fs) = (Raise JSONDecodeError, startup truncated_fs).
Proof.
  assert (H1 : files (fs (startup (E := str) truncated_fs)) !! SESSION_FILE tmp
               = Some (Text (py "[{"))) by (vm_compute; reflexivity).
  assert (H2 : json_loads (py "[{") = Raise JSONDecodeError) by (vm_compute; reflexivity).
  split; [exact H1 |]. split; [exact H2 |].
  exact (proj2 (load_session_corrupt tmp (startup (E := str) truncated_fs) _ _ H1 H2)).
Defined.

(** C2 fails on the code: a record that does not parse makes
    [load_session] raise, instead of giving an empty session. *)
Lemma load_session_corrupt_counterexample :
  json_loads (py "[{") = Raise JSONDecodeError
  /\ fst (load_session tmp (startup (E := str) truncated_fs)) = Raise JSONDecodeError.
Proof. split; vm_compute; reflexivity. Qed.

Lemma auto_save_session_write_failure_witness :
  write_fails tmp (fs (mkWorld denied_fs two_tabs))
              (json_dumps (session_data (session (mkWorld denied_fs two_tabs))))
  /\ tabs (snd (auto_save_session tmp (mkWorld denied_fs two_tabs))) = two_tabs.
Proof.
  assert (H1 : write_fails tmp (fs (mkWorld denied_fs two_tabs))
                 (json_dumps (session_data (session (mkWorld denied_fs two_tabs)))))
    by (left; vm_compute; reflexivity).
  split; [exact H1 |].
  exact (proj2 (auto_save_session_write_failure tmp (mkWorld denied_fs two_tabs) H1)).
Defined.

(** C3 fails on the code: a write that is refused makes
    [auto_save_session] raise. *)
Lemma auto_save_session_write_failure_counterexample :
  fst (auto_save_session tmp (mkWorld denied_fs two_tabs)) = Raise OSError.
Proof. vm_compute. reflexivity. Qed.

Lemma load_session_no_record_witness :
  files empty_fs !! SESSION_FILE tmp = None
  /\ load_session tmp (startup (E := str) empty_fs)
     = (Ok tt, mkWorld empty_fs (mkTabs [(empty_document, py "Untitled")] (Some 0%nat))).
Proof.
  assert (H1 : files empty_fs !! SESSION_FILE tmp = None) by (vm_compute; reflexivity).
  split; [exact H1 |].
  exact (proj1 (proj2 (proj2 (load_session_no_record tmp empty_fs H1)))).
Defined.

Lemma session_never_empty_witness :
  load_session tmp (startup (E := str) empty_fs) = (Ok tt, snd (load_session tmp (startup (E := str) empty_fs)))
  /\ (1 <= length (session (fold_left (step tmp) [NewTab; AutoSave; SaveTxt (py "/tmp/a.txt"); ChangeTheme 1]
                                     (snd (load_session tmp (startup (E := str) empty_fs))))))%nat.
Proof.
  assert (H1 : load_session tmp (startup (E := str) empty_fs)
               = (Ok tt, snd (load_session tmp (startup (E := str) empty_fs))))
    by (vm_compute; reflexivity).
  split; [exact H1 |].
  exact (proj2 (session_never_empty tmp empty_fs _ _ H1)).
Defined.


Lemma save_twice_load_witness :
  session_ok (session two_tabs_world) = true
  /\ auto_save_session tmp two_tabs_world = (Ok tt, two_tabs_saved)
  /\ exists w2 r1 r2,
       auto_save_session tmp two_tabs_saved = (Ok tt, w2)
       /\ fs w2 = fs two_tabs_saved
       /\ load_session_read tmp (startup (E := str) (fs two_tabs_saved)) = (Ok tt, r1)
       /\ session r1 = map restored (session two_tabs_world)
       /\ load_session_read tmp (startup (E := str) (fs w2)) = (Ok tt, r2)
       /\ session r2 = map restored (session two_tabs_world).
Proof.
  assert (H1 : session_ok (session two_tabs_world) = true) by (vm_compute; reflexivity).
  assert (H2 : auto_save_session tmp two_tabs_world = (Ok tt, two_tabs_saved))
    by (vm_compute; reflexivity).
  split; [exact H1 |]. split; [exact H2 |].
  exact (save_twice_load tmp two_tabs_world two_tabs_saved H1 H2).
Defined.

Lemma load_session_missing_keys_witness :
  files sparse_fs !! SESSION_FILE tmp = Some (Text sparse_record)
  /\ json_loads sparse_record = Ok (PList (map PDict sparse_items))
  /\ forallb self_contained sparse_items = true
  /\ exists w, load_session_read tmp (startup (E := str) sparse_fs) = (Ok tt, w)
               /\ session w = map restore_of sparse_items.
Proof.
  assert (H1 : files sparse_fs !! SESSION_FILE tmp = Some (Text sparse_record))
    by (vm_compute; reflexivity).
  assert (H2 : json_loads sparse_record = Ok (PList (map PDict sparse_items)))
    by (vm_compute; reflexivity).
  assert (H3 : forallb self_contained sparse_items = true) by (vm_compute; reflexivity).
  split; [exact H1 |]. split; [exact H2 |]. split; [exact H3 |].
  exact (proj1 (load_session_missing_keys tmp sparse_fs _ _ H1 H2 H3)).
Defined.

(** C9 fails on the code: the record parses as a sequence of objects,
    its object lacks the [html] key, and the load raises. *)
Lemma load_session_missing_keys_counterexample :
  json_loads dangling_record
  = Ok (PList [PDict [(py "path", PStr (py "/no/such/file"))]])
  /\ fst (load_session tmp (startup (E := str) dangling_fs)) = Raise FileNotFoundError.
Proof. split; vm_compute; reflexivity. Qed.

Lemma load_session_ignores_files_witness :
  files (fs two_tabs_saved) !! SESSION_FILE tmp
  = Some (Text (json_dumps (session_data (session two_tabs_world))))
  /\ files other_fs !! SESSION_FILE tmp
     = Some (Text (json_dumps (session_data (session two_tabs_world))))
  /\ json_loads (json_dumps (session_data (session two_tabs_world)))
     = Ok (PList (map session_entry (session two_tabs_world)))
  /\ forallb html_present (map session_entry (session two_tabs_world)) = true
  /\ fst (load_session tmp (startup (E := str) (fs two_tabs_saved)))
     = fst (load_session tmp (startup (E := str) other_fs)).
Proof.
  assert (H1 : files (fs two_tabs_saved) !! SESSION_FILE tmp
               = Some (Text (json_dumps (session_data (session two_tabs_world)))))
    by (vm_compute; reflexivity).
  assert (H2 : files other_fs !! SESSION_FILE tmp
               = Some (Text (json_dumps (session_data (session two_tabs_world)))))
    by (vm_compute; reflexivity).
  assert (H3 : json_loads (json_dumps (session_data (session two_tabs_world)))
               = Ok (PList (map session_entry (session two_tabs_world))))
    by (vm_compute; reflexivity).
  assert (H4 : forallb html_present (map session_entry (session two_tabs_world)) = true)
    by (vm_compute; reflexivity).
  split; [exact H1 |]. split; [exact H2 |]. split; [exact H3 |]. split; [exact H4 |].
  exact (proj1 (load_session_ignores_files tmp _ _ _ _ H1 H2 H3 H4)).
Defined.

(** ** Runs of the other slots *)

(** The window of a first start: one empty Document. *)
Definition fresh_window : world (E := str) :=
  mkWorld empty_fs (mkTabs [(empty_document, py "Untitled")] (Some 0%nat)).

(** A record that holds an empty object instead of a list. *)
Definition empty_object_fs : filesystem :=
  FS {[ SESSION_FILE tmp := Text (py "{}") ]} ∅.

(** A record that holds a list of numbers. *)
Definition numbers_fs : filesystem :=
  FS {[ SESSION_FILE tmp := Text (py "[1, 2]") ]} ∅.

(** A record that is not UTF-8. *)
Definition binary_fs : filesystem :=
  FS {[ SESSION_FILE tmp := Unreadable UnicodeDecodeError ]} ∅.

(** A record whose second object names a file that does not exist and
    has no [html]. *)
Definition half_items : list (list (str * pyval)) :=
  [[(py "path", PNone); (py "html", PStr (py "<i>x</i>"))]].

Definition half_record : str :=
  json_dumps (PList (map PDict half_items
                     ++ [PDict [(py "path", PStr (py "/no/such/file"))];
                         PDict [(py "html", PStr (py "never"))]])).

Definition half_fs : filesystem :=
  FS {[ SESSION_FILE tmp := Text half_record ]} ∅.

Definition half_window : world (E := str) :=
  mkWorld half_fs (addTabs (restored_pages half_items) no_tabs).

(** An object whose [path] is a number. *)
Definition odd_item : list (str * pyval) :=
  [(py "path", PInt 5); (py "html", PStr (py "x"))].

Lemma current_always_defined_witness :
  load_session tmp (startup (E := str) empty_fs) = (Ok tt, fresh_window)
  /\ exists i t,
       current_tab (fold_left (step tmp) [NewTab; SelectTab 0; SaveTxt (py "/tmp/a.txt")]
                              fresh_window)
       = (Ok (i, t),
          fold_left (step tmp) [NewTab; SelectTab 0; SaveTxt (py "/tmp/a.txt")] fresh_window).
Proof.
  assert (H1 : load_session tmp (startup (E := str) empty_fs) = (Ok tt, fresh_window))
    by (vm_compute; reflexivity).
  split; [exact H1 |].
  exact (current_always_defined tmp empty_fs fresh_window _ H1).
Defined.

Lemma labels_follow_paths_witness :
  load_session tmp (startup (E := str) empty_fs) = (Ok tt, fresh_window)
  /\ Forall (fun pg => filename (fst pg) = Ok (snd pg))
            (pages (tabs (fold_left (step tmp) [SaveTxt (py "/tmp/a.txt"); NewTab]
                                    fresh_window))).
Proof.
  assert (H1 : load_session tmp (startup (E := str) empty_fs) = (Ok tt, fresh_window))
    by (vm_compute; reflexivity).
  split; [exact H1 |].
  exact (labels_follow_paths tmp empty_fs fresh_window _ H1).
Defined.

Lemma load_session_empty_record_witness :
  files empty_object_fs !! SESSION_FILE tmp = Some (Text (py "{}"))
  /\ json_loads (py "{}") = Ok (PDict [])
  /\ load_session tmp (startup (E := str) empty_object_fs)
     = (Ok tt, mkWorld empty_object_fs
                 (mkTabs [(empty_document, py "Untitled")] (Some 0%nat))).
Proof.
  assert (H1 : files empty_object_fs !! SESSION_FILE tmp = Some (Text (py "{}")))
    by (vm_compute; reflexivity).
  assert (H2 : json_loads (py "{}") = Ok (PDict [])) by (vm_compute; reflexivity).
  split; [exact H1 |]. split; [exact H2 |].
  exact (load_session_empty_record tmp empty_object_fs _ _ H1 H2 eq_refl).
Defined.

Lemma load_session_wrong_shape_witness :
  files (fs (startup (E := str) numbers_fs)) !! SESSION_FILE tmp = Some (Text (py "[1, 2]"))
  /\ json_loads (py "[1, 2]") = Ok (PList [PInt 1; PInt 2])
  /\ load_session tmp (startup (E := str) numbers_fs)
     = (Raise AttributeError, startup numbers_fs).
Proof.
  assert (H1 : files (fs (startup (E := str) numbers_fs)) !! SESSION_FILE tmp
               = Some (Text (py "[1, 2]"))) by (vm_compute; reflexivity).
  assert (H2 : json_loads (py "[1, 2]") = Ok (PList [PInt 1; PInt 2]))
    by (vm_compute; reflexivity).
  split; [exact H1 |]. split; [exact H2 |].
  exact (load_session_wrong_shape tmp (startup (E := str) numbers_fs) _ _ H1 H2).
Defined.

Lemma load_session_unreadable_witness :
  files (fs (startup (E := str) binary_fs)) !! SESSION_FILE tmp
  = Some (Unreadable UnicodeDecodeError)
  /\ load_session tmp (startup (E := str) binary_fs)
     = (Raise UnicodeDecodeError, startup binary_fs).
Proof.
  assert (H1 : files (fs (startup (E := str) binary_fs)) !! SESSION_FILE tmp
               = Some (Unreadable UnicodeDecodeError)) by (vm_compute; reflexivity).
  split; [exact H1 |].
  exact (load_session_unreadable tmp (startup (E := str) binary_fs) _ H1).
Defined.

Lemma load_session_stops_at_failure_witness :
  files half_fs !! SESSION_FILE tmp = Some (Text half_record)
  /\ forallb self_contained half_items = true
  /\ load_session tmp (startup (E := str) half_fs) = (Raise FileNotFoundError, half_window)
  /\ length (pages (tabs half_window)) = 1%nat.
Proof.
  assert (H1 : files half_fs !! SESSION_FILE tmp = Some (Text half_record))
    by (vm_compute; reflexivity).
  assert (H2 : json_loads half_record
               = Ok (PList (map PDict half_items
                            ++ PDict [(py "path", PStr (py "/no/such/file"))]
                               :: [PDict [(py "html", PStr (py "never"))]])))
    by (vm_compute; reflexivity).
  assert (H3 : forallb self_contained half_items = true) by (vm_compute; reflexivity).
  assert (H4 : restore_item (PDict [(py "path", PStr (py "/no/such/file"))]) half_window
               = (Raise FileNotFoundError, half_window)) by (vm_compute; reflexivity).
  split; [exact H1 |]. split; [exact H3 |].
  split; [| reflexivity].
  exact (proj1 (load_session_stops_at_failure tmp half_fs _ _ _ _ _ H1 H2 H3 H4)).
Defined.

Lemma restore_item_odd_path_witness :
  dict_get (py "html") odd_item = PStr (py "x")
  /\ restore_item (PDict odd_item) (startup (E := str) empty_fs)
     = (Raise TypeError, startup empty_fs).
Proof.
  assert (H1 : dict_get (py "html") odd_item = PStr (py "x")) by (vm_compute; reflexivity).
  assert (H2 : forall s, dict_get (py "path") odd_item <> PStr s)
    by (intros s; vm_compute; discriminate).
  split; [exact H1 |].
  exact (restore_item_odd_path odd_item _ (startup (E := str) empty_fs) H1 H2).
Defined.

Lemma session_record_printable_witness :
  Forall plain_path (session two_tabs_world)
  /\ Forall printable (json_dumps (session_data (session two_tabs_world))).
Proof.
  assert (H1 : Forall plain_path (session two_tabs_world)).
  { constructor; [right; eexists; reflexivity |].
    constructor; [left; reflexivity | constructor]. }
  split; [exact H1 |].
  exact (session_record_printable (session two_tabs_world) H1).
Defined.

Lemma step_other_tabs_witness :
  pages (tabs two_tabs_world) !! 1%nat = Some (mkTab (py "plain") PNone, py "Untitled")
  /\ currentIndex (tabs two_tabs_world) <> Some 1%nat
  /\ pages (tabs (step tmp two_tabs_world (SaveTxt (py "/tmp/y.txt")))) !! 1%nat
     = Some (mkTab (py "plain") PNone, py "Untitled").
Proof.
  assert (H1 : pages (tabs two_tabs_world) !! 1%nat
               = Some (mkTab (py "plain") PNone, py "Untitled")) by reflexivity.
  assert (H2 : currentIndex (tabs two_tabs_world) <> Some 1%nat) by discriminate.
  split; [exact H1 |]. split; [exact H2 |].
  destruct (step_other_tabs tmp two_tabs_world (SaveTxt (py "/tmp/y.txt")) 1 _ H1 H2)
    as (pg' & Hk & _ & _ & Hsame).
  rewrite Hk. f_equal. apply Hsame. intros idx. discriminate.
Defined.

Lemma open_txt_py_effect_witness :
  currentIndex (tabs (mkWorld other_fs two_tabs)) = Some 0%nat
  /\ pages (tabs (mkWorld other_fs two_tabs)) !! 0%nat
     = Some (mkTab (py "<b>hello</b>") (PStr (py "/tmp/x.py")), py "x.py")
  /\ open_txt_py (py "/tmp/x.py") (mkWorld other_fs two_tabs)
     = (Ok tt, mkWorld other_fs
                 (mkTabs [(mkTab (py "print(1)") (PStr (py "/tmp/x.py")), py "x.py");
                          (mkTab (py "plain") PNone, py "Untitled")]
                         (Some 0%nat))).
Proof.
  assert (H1 : currentIndex (tabs (mkWorld other_fs two_tabs)) = Some 0%nat) by reflexivity.
  assert (H2 : pages (tabs (mkWorld other_fs two_tabs)) !! 0%nat
               = Some (mkTab (py "<b>hello</b>") (PStr (py "/tmp/x.py")), py "x.py"))
    by reflexivity.
  split; [exact H1 |]. split; [exact H2 |].
  rewrite (open_txt_py_effect (py "/tmp/x.py") (mkWorld other_fs two_tabs) 0 _ _ H1 H2).
  vm_compute. reflexivity.
Defined.



Lemma startup_selects_first_tab_witness :
  load_session tmp (startup (E := str) (fs two_tabs_saved))
  = (Ok tt, snd (load_session tmp (startup (E := str) (fs two_tabs_saved))))
  /\ currentIndex (tabs (snd (load_session tmp (startup (E := str) (fs two_tabs_saved)))))
     = Some 0%nat.
Proof.
  assert (H1 : load_session tmp (startup (E := str) (fs two_tabs_saved))
               = (Ok tt, snd (load_session tmp (startup (E := str) (fs two_tabs_saved)))))
    by (vm_compute; reflexivity).
  split; [exact H1 |].
  exact (startup_selects_first_tab tmp (fs two_tabs_saved) _ H1).
Defined.

Lemma restart_keeps_labels_witness :
  load_session tmp (startup (E := str) empty_fs) = (Ok tt, fresh_window)
  /\ session_ok (session (fold_left (step tmp) [SaveTxt (py "/tmp/a.txt"); NewTab]
                                    fresh_window)) = true
  /\ exists w2,
       load_session tmp
         (startup (fs (snd (auto_save_session tmp
                              (fold_left (step tmp) [SaveTxt (py "/tmp/a.txt"); NewTab]
                                         fresh_window)))))
       = (Ok tt, w2)
       /\ map snd (pages (tabs w2)) = [py "a.txt"; py "Untitled"].
Proof.
  assert (H1 : load_session tmp (startup (E := str) empty_fs) = (Ok tt, fresh_window))
    by (vm_compute; reflexivity).
  assert (H2 : session_ok (session (fold_left (step tmp) [SaveTxt (py "/tmp/a.txt"); NewTab]
                                              fresh_window)) = true)
    by (vm_compute; reflexivity).
  assert (H3 : auto_save_session tmp
                 (fold_left (step tmp) [SaveTxt (py "/tmp/a.txt"); NewTab] fresh_window)
               = (Ok tt, snd (auto_save_session tmp
                                (fold_left (step tmp) [SaveTxt (py "/tmp/a.txt"); NewTab]
                                           fresh_window))))
    by (vm_compute; reflexivity).
  split; [exact H1 |]. split; [exact H2 |].
  destruct (restart_keeps_labels tmp empty_fs fresh_window _ _ H1 H2 H3)
    as (w2 & Hload & Hlabels & _).
  exists w2. split; [exact Hload | exact Hlabels].
Defined.


Lemma failed_start_repairs_record_witness :
  HackerEditor_init tmp half_fs = (Raise FileNotFoundError, half_window)
  /\ faults half_fs !! SESSION_FILE tmp = None
  /\ session_ok (session half_window) = true
  /\ exists w',
       HackerEditor_init tmp (at_exit tmp half_window) = (Ok tt, w')
       /\ session w' = map restored (session half_window).
Proof.
  assert (H1 : HackerEditor_init tmp half_fs = (Raise FileNotFoundError, half_window))
    by (vm_compute; reflexivity).
  assert (H2 : faults half_fs !! SESSION_FILE tmp = None) by (vm_compute; reflexivity).
  assert (H3 : session_ok (session half_window) = true) by (vm_compute; reflexivity).
  split; [exact H1 |]. split; [exact H2 |]. split; [exact H3 |].
  exact (proj2 (failed_start_repairs_record tmp half_fs _ half_window H1 H2 H3)).
Defined.
